(** * Legal Document Analyzer: the application state machine of index.tsx

    A shallow embedding of the single mutable [state] record of the page and
    of the handlers that write it ([analyzeDocument], [askFollowUpQuestion],
    [handleFileUpload], [toggleClause]) together with the part of the
    templates that decides which handler a user can reach
    ([renderAnalysis], [renderChat]).

    Conventions.
    - A JavaScript string is its sequence of UTF-16 code units.
    - An [async] handler is cut at its [await]: the part before it, which
      yields the request, and the part after it, which receives the outcome
      of the request.  Handlers interleave only at these cuts.
    - The model API, [JSON.parse] and pdf.js are collaborators: what they
      return or throw is an input of the part of the handler that runs
      after them.
    - [renderApp] writes no field of [state]; it is the pure function [App]
      and the handlers do not mention it. *)

From Stdlib Require Import List NArith ZArith Bool String Ascii Lia.
Import ListNotations.

Set Implicit Arguments.

(* ===================================================================== *)
(** ** JavaScript strings *)
(* ===================================================================== *)

Module Js.

Definition code_unit := N.
Definition jsstring := list code_unit.

(** A source literal, one code unit per character (the literals of
    index.tsx are ASCII). *)
Fixpoint lit (s : string) : jsstring :=
  match s with
  | EmptyString => []
  | String c s' => N_of_ascii c :: lit s'
  end.

Definition LF : jsstring := [10%N].
Definition DQUOTE : jsstring := [34%N].

(** ECMAScript WhiteSpace and LineTerminator code points, the set that
    [String.prototype.trim] strips. *)
Definition is_white_space (c : code_unit) : bool :=
  existsb (N.eqb c)
    [ 9; 10; 11; 12; 13; 32; 160; 5760;
      8192; 8193; 8194; 8195; 8196; 8197; 8198; 8199; 8200; 8201; 8202;
      8232; 8233; 8239; 8287; 12288; 65279 ]%N.

Fixpoint trimStart (s : jsstring) : jsstring :=
  match s with
  | [] => []
  | c :: s' => if is_white_space c then trimStart s' else s
  end.

Definition trimEnd (s : jsstring) : jsstring := rev (trimStart (rev s)).

Definition trim (s : jsstring) : jsstring := trimEnd (trimStart s).

(** Truthiness of a string: the empty string is the only falsy one. *)
Definition truthy (s : jsstring) : bool :=
  match s with [] => false | _ :: _ => true end.

(** Truthiness of a [string | null]. *)
Definition truthy_opt (o : option jsstring) : bool :=
  match o with None => false | Some s => truthy s end.

(** [Array.prototype.join] on an array of strings. *)
Fixpoint join (sep : jsstring) (l : list jsstring) : jsstring :=
  match l with
  | [] => []
  | [x] => x
  | x :: rest => x ++ sep ++ join sep rest
  end.

Definition whitespace_only (s : jsstring) : Prop :=
  Forall (fun c => is_white_space c = true) s.

(** [needle] occurs in [hay] as a contiguous run. *)
Definition contains (hay needle : jsstring) : Prop :=
  exists pre post, hay = pre ++ needle ++ post.

(** A thrown value, seen through the one property the handlers read. *)
Record Error := { message : jsstring }.

(** The completion of a call: a value or a throw. *)
Inductive completion (A : Type) : Type :=
| Normal (a : A)
| Throw (e : Error).
Arguments Normal {A} a.
Arguments Throw {A} e.

End Js.
Import Js.

(* ===================================================================== *)
(** ** Data model *)
(* ===================================================================== *)

(** The shape fixed by [responseSchema]. *)
Record Clause := {
  clause_number : Z;
  original_text : option jsstring;
  simplified_text : jsstring;
  risk_level : jsstring;
  risk_description : jsstring
}.

Record CriticalClause := {
  critical_clause_number : Z;
  reason : jsstring
}.

Record RiskLevels := {
  overall : jsstring;
  explanation : jsstring
}.

Record AnalysisResult := {
  title : jsstring;
  contract_type : jsstring;
  summary : jsstring;
  clauses : list Clause;
  critical_clauses : list CriticalClause;
  risk_levels : RiskLevels;
  sentiment : option jsstring;
  intent : option jsstring;
  key_points : list jsstring;
  audio_friendly_summary : jsstring
}.

Inductive Role := user | model.

(** An entry of [state.chatHistory].  A model turn stores [response.text]
    as it is, which is [undefined] when the reply carries no text. *)
Record ChatMessage := { role : Role; text : option jsstring }.

(** An entry of the seed history given to [ai.chats.create]:
    [{ role, parts: [{ text }] }]. *)
Record Content := { content_role : Role; parts : list jsstring }.

(** The argument of [ai.chats.create]; the handle it returns is identified
    with the parameters it was created from. *)
Record Chat := {
  chat_model : jsstring;
  history : list Content;
  chat_systemInstruction : jsstring
}.

Record Form := {
  documentContent : jsstring;
  userRole : jsstring;
  audienceType : jsstring;
  explanationLevel : jsstring;
  explanationTone : jsstring
}.

Record State := {
  isLoading : bool;
  analysis : option AnalysisResult;
  error : option jsstring;
  activeClause : option Z;
  form : Form;
  chat : option Chat;
  chatHistory : list ChatMessage;
  isChatLoading : bool;
  chatError : option jsstring;
  currentQuestion : jsstring
}.

(** The module-level [ai]: the client, or [undefined] when its constructor
    threw. *)
Inductive GoogleGenAI := Client.

(** Field assignments. *)
Definition set_isLoading (b : bool) (s : State) : State :=
  {| isLoading := b; analysis := analysis s; error := error s;
     activeClause := activeClause s; form := form s; chat := chat s;
     chatHistory := chatHistory s; isChatLoading := isChatLoading s;
     chatError := chatError s; currentQuestion := currentQuestion s |}.

Definition set_analysis (a : option AnalysisResult) (s : State) : State :=
  {| isLoading := isLoading s; analysis := a; error := error s;
     activeClause := activeClause s; form := form s; chat := chat s;
     chatHistory := chatHistory s; isChatLoading := isChatLoading s;
     chatError := chatError s; currentQuestion := currentQuestion s |}.

Definition set_error (e : option jsstring) (s : State) : State :=
  {| isLoading := isLoading s; analysis := analysis s; error := e;
     activeClause := activeClause s; form := form s; chat := chat s;
     chatHistory := chatHistory s; isChatLoading := isChatLoading s;
     chatError := chatError s; currentQuestion := currentQuestion s |}.

Definition set_activeClause (c : option Z) (s : State) : State :=
  {| isLoading := isLoading s; analysis := analysis s; error := error s;
     activeClause := c; form := form s; chat := chat s;
     chatHistory := chatHistory s; isChatLoading := isChatLoading s;
     chatError := chatError s; currentQuestion := currentQuestion s |}.

Definition set_form (f : Form) (s : State) : State :=
  {| isLoading := isLoading s; analysis := analysis s; error := error s;
     activeClause := activeClause s; form := f; chat := chat s;
     chatHistory := chatHistory s; isChatLoading := isChatLoading s;
     chatError := chatError s; currentQuestion := currentQuestion s |}.

Definition set_chat (c : option Chat) (s : State) : State :=
  {| isLoading := isLoading s; analysis := analysis s; error := error s;
     activeClause := activeClause s; form := form s; chat := c;
     chatHistory := chatHistory s; isChatLoading := isChatLoading s;
     chatError := chatError s; currentQuestion := currentQuestion s |}.

Definition set_chatHistory (h : list ChatMessage) (s : State) : State :=
  {| isLoading := isLoading s; analysis := analysis s; error := error s;
     activeClause := activeClause s; form := form s; chat := chat s;
     chatHistory := h; isChatLoading := isChatLoading s;
     chatError := chatError s; currentQuestion := currentQuestion s |}.

Definition set_isChatLoading (b : bool) (s : State) : State :=
  {| isLoading := isLoading s; analysis := analysis s; error := error s;
     activeClause := activeClause s; form := form s; chat := chat s;
     chatHistory := chatHistory s; isChatLoading := b;
     chatError := chatError s; currentQuestion := currentQuestion s |}.

Definition set_chatError (e : option jsstring) (s : State) : State :=
  {| isLoading := isLoading s; analysis := analysis s; error := error s;
     activeClause := activeClause s; form := form s; chat := chat s;
     chatHistory := chatHistory s; isChatLoading := isChatLoading s;
     chatError := e; currentQuestion := currentQuestion s |}.

Definition set_currentQuestion (q : jsstring) (s : State) : State :=
  {| isLoading := isLoading s; analysis := analysis s; error := error s;
     activeClause := activeClause s; form := form s; chat := chat s;
     chatHistory := chatHistory s; isChatLoading := isChatLoading s;
     chatError := chatError s; currentQuestion := q |}.

Definition set_documentContent (d : jsstring) (f : Form) : Form :=
  {| documentContent := d; userRole := userRole f;
     audienceType := audienceType f; explanationLevel := explanationLevel f;
     explanationTone := explanationTone f |}.

Definition set_userRole (r : jsstring) (f : Form) : Form :=
  {| documentContent := documentContent f; userRole := r;
     audienceType := audienceType f; explanationLevel := explanationLevel f;
     explanationTone := explanationTone f |}.

Definition set_audienceType (a : jsstring) (f : Form) : Form :=
  {| documentContent := documentContent f; userRole := userRole f;
     audienceType := a; explanationLevel := explanationLevel f;
     explanationTone := explanationTone f |}.

Definition set_explanationLevel (l : jsstring) (f : Form) : Form :=
  {| documentContent := documentContent f; userRole := userRole f;
     audienceType := audienceType f; explanationLevel := l;
     explanationTone := explanationTone f |}.

Definition set_explanationTone (t : jsstring) (f : Form) : Form :=
  {| documentContent := documentContent f; userRole := userRole f;
     audienceType := audienceType f; explanationLevel := explanationLevel f;
     explanationTone := t |}.

(** The [state] literal of the source. *)
Definition initial_state : State :=
  {| isLoading := false;
     analysis := None;
     error := None;
     activeClause := None;
     form := {| documentContent := [];
                userRole := lit "Tenant";
                audienceType := lit "Layman";
                explanationLevel := lit "Layman";
                explanationTone := lit "Casual" |};
     chat := None;
     chatHistory := [];
     isChatLoading := false;
     chatError := None;
     currentQuestion := [] |}.

Definition INIT_FAILED : jsstring :=
  lit "Failed to initialize the Gemini API. Please ensure the API key is set correctly.".

(** Module initialisation: [new GoogleGenAI(..)] inside [try]; [ctor] is
    whether the constructor returned. *)
Definition startup (ctor : completion GoogleGenAI) : option GoogleGenAI * State :=
  match ctor with
  | Normal c => (Some c, initial_state)
  | Throw _ => (None, set_error (Some INIT_FAILED) initial_state)
  end.

(* ===================================================================== *)
(** ** Handler bodies: state and exceptions *)
(* ===================================================================== *)

(** A synchronous stretch of a handler reads and writes [state] and may
    throw; writes made before a throw stay. *)
Module Handler.

Definition M (A : Type) : Type := State -> completion A * State.

Definition ret {A} (a : A) : M A := fun s => (Normal a, s).

Definition bind {A B} (m : M A) (k : A -> M B) : M B :=
  fun s =>
    match m s with
    | (Normal a, s') => k a s'
    | (Throw e, s') => (Throw e, s')
    end.

Definition throw {A} (e : Error) : M A := fun s => (Throw e, s).

Definition get : M State := fun s => (Normal s, s).

Definition modify (f : State -> State) : M unit := fun s => (Normal tt, f s).

(** The completion of a collaborator's call, brought into the handler. *)
Definition lift {A} (c : completion A) : M A := fun s => (c, s).

(** [try { body } catch (error) { handler } finally { final }], for a
    handler and a final block that do not throw. *)
Definition try_catch_finally
           (body : M unit) (handler : Error -> State -> State)
           (final : State -> State) : State -> State :=
  fun s =>
    match body s with
    | (Normal _, s') => final s'
    | (Throw e, s') => final (handler e s')
    end.

Declare Scope handler_scope.
Delimit Scope handler_scope with handler.
Notation "x <- m ;; k" := (bind m (fun x => k))
  (at level 61, m at next level, right associativity) : handler_scope.
Notation "m ;; k" := (bind m (fun _ => k))
  (at level 61, right associativity) : handler_scope.

End Handler.
Import Handler.
Local Open Scope handler_scope.


(* ===================================================================== *)
(** ** Collaborators *)
(* ===================================================================== *)

(** What [ai.models.generateContent] and [chat.sendMessage] resolve to; the
    [text] getter is [string | undefined]. *)
Record GenerateContentResponse := { response_text : option jsstring }.

Record GenerateContentParameters := {
  gen_model : jsstring;
  contents : jsstring;
  systemInstruction : jsstring;
  responseMimeType : jsstring
}.

(** What the collaborators answer during one run of [analyzeDocument]:
    the settled [generateContent] promise, [JSON.parse], and whether
    [ai.chats.create] throws. *)
Record AnalysisRun := {
  generateContent : completion GenerateContentResponse;
  JSON_parse : jsstring -> completion AnalysisResult;
  chats_create_throws : option Error
}.

Definition chats_create (run : AnalysisRun) (params : Chat) : completion Chat :=
  match chats_create_throws run with
  | Some e => Throw e
  | None => Normal params
  end.

(** The [TypeError] of reading [trim] of [undefined] (V8's wording). *)
Definition TypeError_trim : Error :=
  {| message := lit "Cannot read properties of undefined (reading 'trim')" |}.

(** pdf.js: an item of [content.items] has a [str] or is marked content. *)
Inductive Item :=
| TextItem (str : jsstring)
| TextMarkedContent.

(** [pdf.getPage(i)] followed by [page.getTextContent()], as [content.items]. *)
Record PDFDocumentProxy := {
  numPages : nat;
  getPage : nat -> completion (list Item)
}.

(** The uploaded file: [file.text()] and, for
    [pdfjsLib.getDocument(await file.arrayBuffer()).promise], the document. *)
Record File := {
  name : jsstring;
  type : jsstring;
  file_text : completion jsstring;
  getDocument : completion PDFDocumentProxy
}.

(* ===================================================================== *)
(** ** analyzeDocument *)
(* ===================================================================== *)

Definition EMPTY_DOCUMENT : jsstring :=
  lit "Please paste or upload a document to analyze.".

Definition GEMINI : jsstring := lit "gemini-2.5-flash".

Definition analysis_systemInstruction : jsstring :=
  lit "You are an expert legal document simplification assistant & risk analyst." ++ LF ++
  lit "Your responsibilities:" ++ LF ++
  lit " - First, perform a complete analysis of the provided document based on the user's context and return it as a single, valid JSON object that conforms to the provided schema. Do not add any other commentary." ++ LF ++
  lit " - After the initial analysis, you will act as a helpful assistant, answering follow-up questions about the document you just analyzed.".

Definition userPrompt (f : Form) : jsstring :=
  lit "Document content:" ++ LF ++
  DQUOTE ++ DQUOTE ++ DQUOTE ++ LF ++
  documentContent f ++ LF ++
  DQUOTE ++ DQUOTE ++ DQUOTE ++ LF ++
  LF ++
  lit "Additional context:" ++ LF ++
  lit " - User role: " ++ userRole f ++ LF ++
  lit " - Desired summary audience/type: " ++ audienceType f ++ LF ++
  lit " - Explanation complexity level: " ++ explanationLevel f ++ LF ++
  lit " - Explanation tone: " ++ explanationTone f ++ LF ++
  lit " - Required output format: JSON" ++ LF.

Definition MODEL_TURN_PREAMBLE : jsstring :=
  lit "I have analyzed the document. Here is the summary in JSON format as requested:" ++ LF.

Definition chat_instruction : jsstring :=
  lit "You are a helpful assistant answering questions about a legal document you have already analyzed. Be concise and refer to specific clauses when possible.".

Definition chat_params (prompt jsonText : jsstring) : Chat :=
  {| chat_model := GEMINI;
     history :=
       [ {| content_role := user; parts := [prompt] |};
         {| content_role := model; parts := [MODEL_TURN_PREAMBLE ++ jsonText] |} ];
     chat_systemInstruction := chat_instruction |}.

Definition analysis_error (e : Error) : jsstring :=
  lit "An error occurred during analysis: " ++ message e ++ lit ". Please try again.".

(** Up to the [await]: the two guards, the five resets, and the request. *)
Definition analyzeDocument_begin (ai : option GoogleGenAI) (s : State)
  : State * option GenerateContentParameters :=
  match ai with
  | None => (s, None)
  | Some _ =>
    if negb (truthy (trim (documentContent (form s)))) then
      (set_error (Some EMPTY_DOCUMENT) s, None)
    else
      let s := set_isLoading true s in
      let s := set_analysis None s in
      let s := set_error None s in
      let s := set_chat None s in
      let s := set_chatHistory [] s in
      (s, Some {| gen_model := GEMINI;
                  contents := userPrompt (form s);
                  systemInstruction := analysis_systemInstruction;
                  responseMimeType := lit "application/json" |})
  end.

(** The [try] block from the settled promise on. *)
Definition analyzeDocument_try (run : AnalysisRun) (prompt : jsstring) : M unit :=
  response <- lift (generateContent run) ;;
  raw <- match response_text response with
         | Some t => ret t
         | None => throw TypeError_trim
         end ;;
  let jsonText := trim raw in
  a <- lift (JSON_parse run jsonText) ;;
  modify (set_analysis (Some a)) ;;
  c <- lift (chats_create run (chat_params prompt jsonText)) ;;
  modify (set_chat (Some c)).

Definition analyzeDocument_catch (e : Error) (s : State) : State :=
  set_error (Some (analysis_error e)) s.

Definition analyzeDocument_finally (s : State) : State :=
  set_isLoading false s.

(** After the [await]: [prompt] is the local [userPrompt] of this call. *)
Definition analyzeDocument_resume (run : AnalysisRun) (prompt : jsstring)
  : State -> State :=
  try_catch_finally (analyzeDocument_try run prompt)
                    analyzeDocument_catch analyzeDocument_finally.

(** A call that no other handler interleaves with. *)
Definition analyzeDocument (ai : option GoogleGenAI) (run : AnalysisRun)
           (s : State) : State :=
  match analyzeDocument_begin ai s with
  | (s1, None) => s1
  | (s1, Some request) => analyzeDocument_resume run (contents request) s1
  end.

(* ===================================================================== *)
(** ** askFollowUpQuestion *)
(* ===================================================================== *)

Definition chat_error (e : Error) : jsstring :=
  lit "Sorry, an error occurred: " ++ message e.

Definition push (m : ChatMessage) (s : State) : State :=
  set_chatHistory (chatHistory s ++ [m]) s.

(** Up to the [await]: the guard, the four writes, and the message handed
    to [state.chat.sendMessage] with the session it is sent on. *)
Definition askFollowUpQuestion_begin (s : State)
  : State * option (Chat * jsstring) :=
  match chat s with
  | None => (s, None)
  | Some session =>
    if negb (truthy (trim (currentQuestion s))) || isChatLoading s then
      (s, None)
    else
      let question := trim (currentQuestion s) in
      let s := set_isChatLoading true s in
      let s := set_chatError None s in
      let s := push {| role := user; text := Some question |} s in
      let s := set_currentQuestion [] s in
      (s, Some (session, question))
  end.

Definition askFollowUpQuestion_try (reply : completion GenerateContentResponse)
  : M unit :=
  response <- lift reply ;;
  let answer := response_text response in
  modify (push {| role := model; text := answer |}).

Definition askFollowUpQuestion_catch (e : Error) (s : State) : State :=
  set_chatError (Some (chat_error e)) s.

Definition askFollowUpQuestion_finally (s : State) : State :=
  set_isChatLoading false s.

Definition askFollowUpQuestion_resume (reply : completion GenerateContentResponse)
  : State -> State :=
  try_catch_finally (askFollowUpQuestion_try reply)
                    askFollowUpQuestion_catch askFollowUpQuestion_finally.

(** A call that no other handler interleaves with; [reply] is the settled
    [sendMessage] promise. *)
Definition askFollowUpQuestion (reply : completion GenerateContentResponse)
           (s : State) : State :=
  match askFollowUpQuestion_begin s with
  | (s1, None) => s1
  | (s1, Some _) => askFollowUpQuestion_resume reply s1
  end.

(* ===================================================================== *)
(** ** handleFileUpload and toggleClause *)
(* ===================================================================== *)

Definition UNSUPPORTED : Error :=
  {| message := lit "Unsupported file type. Please upload a .txt or .pdf file." |}.

Definition upload_error (e : Error) : jsstring :=
  lit "Failed to process the uploaded file: " ++ message e.

Definition item_str (i : Item) : jsstring :=
  match i with
  | TextItem str => str
  | TextMarkedContent => []
  end.

Definition pageText (items : list Item) : jsstring :=
  join (lit " ") (map item_str items).

(** [for (let i = 1; i <= pdf.numPages; i++)], with [remaining] the number
    of iterations still to run from [i]. *)
Fixpoint pages_loop (pdf : PDFDocumentProxy) (remaining i : nat)
         (pageTexts : list jsstring) : completion (list jsstring) :=
  match remaining with
  | O => Normal pageTexts
  | S remaining' =>
    match getPage pdf i with
    | Throw e => Throw e
    | Normal items =>
      pages_loop pdf remaining' (S i) (pageTexts ++ [pageText items])
    end
  end.

Definition APPLICATION_PDF : jsstring := lit "application/pdf".
Definition TEXT_PLAIN : jsstring := lit "text/plain".

Definition jsstring_eqb (a b : jsstring) : bool :=
  if list_eq_dec N.eq_dec a b then true else false.

(** The local [textContent] the [try] block computes. *)
Definition read_file (file : File) : completion jsstring :=
  if jsstring_eqb (type file) APPLICATION_PDF then
    match getDocument file with
    | Throw e => Throw e
    | Normal pdf =>
      match pages_loop pdf (numPages pdf) 1 [] with
      | Throw e => Throw e
      | Normal pageTexts => Normal (join (LF ++ LF) pageTexts)
      end
    end
  else if jsstring_eqb (type file) TEXT_PLAIN then
    file_text file
  else
    Throw UNSUPPORTED.

Definition handleFileUpload_try (file : File) : M unit :=
  textContent <- lift (read_file file) ;;
  modify (fun s => set_form (set_documentContent textContent (form s)) s).

Definition handleFileUpload_catch (e : Error) (s : State) : State :=
  set_error (Some (upload_error e)) s.

Definition handleFileUpload_finally (s : State) : State :=
  set_isLoading false s.

Definition handleFileUpload_resume (file : File) : State -> State :=
  try_catch_finally (handleFileUpload_try file)
                    handleFileUpload_catch handleFileUpload_finally.

(** A file of a supported type is read across an [await]. *)
Definition suspends (file : File) : bool :=
  jsstring_eqb (type file) APPLICATION_PDF || jsstring_eqb (type file) TEXT_PLAIN.

(** Up to the first [await]: [files] is [target.files?.[0]].  A file of
    another type throws before any [await], so the handler runs through.
    The writes to the [fileName] element are to the document, not to
    [state], and are left out. *)
Definition handleFileUpload_begin (files : option File) (s : State)
  : State * option File :=
  match files with
  | None => (s, None)
  | Some file =>
    let s := set_isLoading true s in
    let s := set_error None s in
    let s := set_form (set_documentContent [] (form s)) s in
    let s := set_analysis None s in
    if suspends file then (s, Some file)
    else (handleFileUpload_resume file s, None)
  end.

(** A call that no other handler interleaves with. *)
Definition handleFileUpload (files : option File) (s : State) : State :=
  match handleFileUpload_begin files s with
  | (s1, None) => s1
  | (s1, Some file) => handleFileUpload_resume file s1
  end.

Definition option_Z_eqb (a : option Z) (n : Z) : bool :=
  match a with
  | Some m => Z.eqb m n
  | None => false
  end.

Definition toggleClause (clauseNumber : Z) (s : State) : State :=
  set_activeClause
    (if option_Z_eqb (activeClause s) clauseNumber then None else Some clauseNumber)
    s.

(* ===================================================================== *)
(** ** What the templates show *)
(* ===================================================================== *)

(** One [accordion-item]: its header calls [toggleClause] with the clause's
    number on a click. *)
Record AccordionItem := {
  item_clause : Clause;
  aria_expanded : bool
}.

(** The card of [renderChat]. *)
Record ChatPanel := {
  messages : list ChatMessage;
  typing_indicator : bool;
  chat_error_message : option jsstring;
  input_value : jsstring;
  input_disabled : bool;
  send_disabled : bool
}.

(** The content of the output panel, by the branch of [renderAnalysis]. *)
Inductive OutputPanel :=
| Spinner
| ErrorMessage (m : jsstring)
| Placeholder
| AnalysisView (a : AnalysisResult) (accordion : list AccordionItem)
               (chatPanel : option ChatPanel).

Definition renderChat (s : State) : option ChatPanel :=
  match chat s with
  | None => None
  | Some _ =>
    Some {| messages := chatHistory s;
            typing_indicator := isChatLoading s;
            chat_error_message :=
              if truthy_opt (chatError s) then chatError s else None;
            input_value := currentQuestion s;
            input_disabled := isChatLoading s;
            send_disabled :=
              negb (truthy (trim (currentQuestion s))) || isChatLoading s |}
  end.

Definition renderAccordion (s : State) (a : AnalysisResult) : list AccordionItem :=
  map (fun clause =>
         {| item_clause := clause;
            aria_expanded := option_Z_eqb (activeClause s) (clause_number clause) |})
      (clauses a).

Definition renderAnalysis (s : State) : OutputPanel :=
  if isLoading s then Spinner
  else
    match error s with
    | Some (c :: m) => ErrorMessage (c :: m)
    | _ =>
      match analysis s with
      | None => Placeholder
      | Some a => AnalysisView a (renderAccordion s a) (renderChat s)
      end
    end.

(** The chat panel, when the page shows one. *)
Definition shown_chat (s : State) : option ChatPanel :=
  match renderAnalysis s with
  | AnalysisView _ _ panel => panel
  | _ => None
  end.

(** The clause numbers whose accordion header the page shows. *)
Definition shown_clauses (s : State) : list Z :=
  match renderAnalysis s with
  | AnalysisView _ accordion _ =>
    map (fun i => clause_number (item_clause i)) accordion
  | _ => []
  end.

(** The [span] of [renderRiskBadge]: its [class] attribute and its text. *)
Record RiskBadge := {
  badge_class : jsstring;
  badge_text : jsstring
}.

(** [level] is the argument, absent when [undefined] or [null];
    [toLowerCase] is [String.prototype.toLowerCase]. *)
Definition renderRiskBadge (toLowerCase : jsstring -> jsstring)
           (level : option jsstring) : RiskBadge :=
  let levelClass :=
    match option_map toLowerCase level with
    | Some (c :: l) => c :: l
    | _ => lit "unknown"
    end in
  {| badge_class := lit "risk-badge risk-" ++ levelClass;
     badge_text := match level with
                   | Some (c :: l) => c :: l
                   | _ => lit "N/A"
                   end |}.

(* ===================================================================== *)
(** ** The page: state, client and requests in flight *)
(* ===================================================================== *)

(** A handler suspended at its [await], with the locals it resumes with. *)
Inductive Task :=
| AnalysisTask (prompt : jsstring)
| ChatTask (session : Chat) (question : jsstring)
| UploadTask (file : File).

Record Page := {
  ai : option GoogleGenAI;
  state : State;
  pending : list Task
}.

Definition boot (ctor : completion GoogleGenAI) : Page :=
  {| ai := fst (startup ctor); state := snd (startup ctor); pending := [] |}.

Inductive Event :=
(* the [@input] and [@change] listeners of the form *)
| InputDocumentContent (v : jsstring)
| InputUserRole (v : jsstring)
| ChangeAudienceType (v : jsstring)
| ChangeExplanationLevel (v : jsstring)
| ChangeExplanationTone (v : jsstring)
| InputQuestion (v : jsstring)
(* the listeners that call a handler *)
| SubmitForm
| ChangeFile (files : option File)
| ClickClause (clauseNumber : Z)
| SubmitQuestion
(* a suspended handler resumes: the [k]-th pending one *)
| AnalysisSettles (k : nat) (run : AnalysisRun)
| ChatSettles (k : nat) (reply : completion GenerateContentResponse)
| UploadSettles (k : nat).

Definition with_state (s : State) (p : Page) : Page :=
  {| ai := ai p; state := s; pending := pending p |}.

Definition suspend (s : State) (t : option Task) (p : Page) : Page :=
  match t with
  | None => with_state s p
  | Some t => {| ai := ai p; state := s; pending := pending p ++ [t] |}
  end.

Fixpoint take (k : nat) (l : list Task) : option (Task * list Task) :=
  match l, k with
  | [], _ => None
  | t :: rest, O => Some (t, rest)
  | t :: rest, S k' =>
    match take k' rest with
    | Some (t', rest') => Some (t', t :: rest')
    | None => None
    end
  end.

Definition on_form (f : Form -> Form) (p : Page) : Page :=
  with_state (set_form (f (form (state p))) (state p)) p.

(** One turn of the event loop; [None] when the event names no pending
    handler of its kind. *)
Definition fire (e : Event) (p : Page) : option Page :=
  match e with
  | InputDocumentContent v => Some (on_form (set_documentContent v) p)
  | InputUserRole v => Some (on_form (set_userRole v) p)
  | ChangeAudienceType v => Some (on_form (set_audienceType v) p)
  | ChangeExplanationLevel v => Some (on_form (set_explanationLevel v) p)
  | ChangeExplanationTone v => Some (on_form (set_explanationTone v) p)
  | InputQuestion v => Some (with_state (set_currentQuestion v (state p)) p)
  | SubmitForm =>
    let (s, request) := analyzeDocument_begin (ai p) (state p) in
    Some (suspend s (option_map (fun r => AnalysisTask (contents r)) request) p)
  | ChangeFile files =>
    let (s, file) := handleFileUpload_begin files (state p) in
    Some (suspend s (option_map UploadTask file) p)
  | ClickClause n => Some (with_state (toggleClause n (state p)) p)
  | SubmitQuestion =>
    let (s, sent) := askFollowUpQuestion_begin (state p) in
    Some (suspend s (option_map (fun m => ChatTask (fst m) (snd m)) sent) p)
  | AnalysisSettles k run =>
    match take k (pending p) with
    | Some (AnalysisTask prompt, rest) =>
      Some {| ai := ai p;
              state := analyzeDocument_resume run prompt (state p);
              pending := rest |}
    | _ => None
    end
  | ChatSettles k reply =>
    match take k (pending p) with
    | Some (ChatTask _ _, rest) =>
      Some {| ai := ai p;
              state := askFollowUpQuestion_resume reply (state p);
              pending := rest |}
    | _ => None
    end
  | UploadSettles k =>
    match take k (pending p) with
    | Some (UploadTask file, rest) =>
      Some {| ai := ai p;
              state := handleFileUpload_resume file (state p);
              pending := rest |}
    | _ => None
    end
  end.

(** Whether the page as rendered lets the event happen: the submit button
    is [?disabled] while [isLoading]; a clause header exists for each clause
    of the analysis on show; the chat form exists when the chat card does,
    and its textarea is [?disabled] while [isChatLoading]. *)
Definition enabled (e : Event) (p : Page) : bool :=
  match e with
  | SubmitForm => negb (isLoading (state p))
  | ClickClause n => existsb (Z.eqb n) (shown_clauses (state p))
  | SubmitQuestion =>
    match shown_chat (state p) with Some _ => true | None => false end
  | InputQuestion _ =>
    match shown_chat (state p) with
    | Some panel => negb (input_disabled panel)
    | None => false
    end
  | _ => true
  end.

Fixpoint run_events (es : list Event) (p : Page) : option Page :=
  match es with
  | [] => Some p
  | e :: es' =>
    match fire e p with
    | Some p' => run_events es' p'
    | None => None
    end
  end.

(** The same, firing only what the page lets happen. *)
Fixpoint run_user (es : list Event) (p : Page) : option Page :=
  match es with
  | [] => Some p
  | e :: es' =>
    if enabled e p then
      match fire e p with
      | Some p' => run_user es' p'
      | None => None
      end
    else None
  end.

(** Every page the handlers can produce, in any order of calls. *)
Inductive reachable : Page -> Prop :=
| reachable_boot ctor : reachable (boot ctor)
| reachable_fire p e p' : reachable p -> fire e p = Some p' -> reachable p'.

(** Every page a user can produce through the rendered controls. *)
Inductive user_reachable : Page -> Prop :=
| user_reachable_boot ctor : user_reachable (boot ctor)
| user_reachable_fire p e p' :
    user_reachable p -> enabled e p = true -> fire e p = Some p' ->
    user_reachable p'.

Definition is_chat (t : Task) : bool :=
  match t with ChatTask _ _ => true | _ => false end.

(** The number of [sendMessage] calls awaiting their reply. *)
Definition chats_in_flight (p : Page) : nat :=
  List.length (filter is_chat (pending p)).

(** The handlers that set [isLoading] before they suspend. *)
Definition is_loader (t : Task) : bool :=
  match t with
  | AnalysisTask _ | UploadTask _ => true
  | ChatTask _ _ => false
  end.

(* ===================================================================== *)
(** ** Sample documents and replies *)
(* ===================================================================== *)

Module Sample.

Definition q (s : string) : jsstring := DQUOTE ++ lit s ++ DQUOTE.

(** A response text of the schema's shape with one clause, numbered by the
    decimal digit [d]. *)
Definition lease_json (d : N) : jsstring :=
  lit "{" ++ q "title" ++ lit ":" ++ q "Lease" ++ lit "," ++
  q "contract_type" ++ lit ":" ++ q "Lease" ++ lit "," ++
  q "summary" ++ lit ":" ++ q "A lease." ++ lit "," ++
  q "clauses" ++ lit ":[{" ++
    q "clause_number" ++ lit ":" ++ [48 + d]%N ++ lit "," ++
    q "simplified_text" ++ lit ":" ++ q "Pay rent." ++ lit "," ++
    q "risk_level" ++ lit ":" ++ q "Low" ++ lit "," ++
    q "risk_description" ++ lit ":" ++ q "Usual." ++ lit "}]," ++
  q "critical_clauses" ++ lit ":[]," ++
  q "risk_levels" ++ lit ":{" ++
    q "overall" ++ lit ":" ++ q "Low" ++ lit "," ++
    q "explanation" ++ lit ":" ++ q "Usual." ++ lit "}," ++
  q "key_points" ++ lit ":[]," ++
  q "audio_friendly_summary" ++ lit ":" ++ q "A lease." ++ lit "}".

(** The value [JSON.parse] gives for [lease_json d]. *)
Definition lease (d : N) : AnalysisResult :=
  {| title := lit "Lease";
     contract_type := lit "Lease";
     summary := lit "A lease.";
     clauses := [ {| clause_number := Z.of_N d;
                     original_text := None;
                     simplified_text := lit "Pay rent.";
                     risk_level := lit "Low";
                     risk_description := lit "Usual." |} ];
     critical_clauses := [];
     risk_levels := {| overall := lit "Low"; explanation := lit "Usual." |};
     sentiment := None;
     intent := None;
     key_points := [];
     audio_friendly_summary := lit "A lease." |}.

Definition SyntaxError : Error :=
  {| message := lit "Unexpected end of JSON input" |}.

(** [JSON.parse] on the two sample texts; any other text is taken not to
    parse. *)
Definition parse (t : jsstring) : completion AnalysisResult :=
  if jsstring_eqb t (lease_json 1) then Normal (lease 1)
  else if jsstring_eqb t (lease_json 2) then Normal (lease 2)
  else Throw SyntaxError.

(** The API answers with [lease_json d] followed by a line feed. *)
Definition answers (d : N) : AnalysisRun :=
  {| generateContent := Normal {| response_text := Some (lease_json d ++ LF) |};
     JSON_parse := parse;
     chats_create_throws := None |}.

(** The API call is rejected. *)
Definition unavailable : AnalysisRun :=
  {| generateContent := Throw {| message := lit "503 Service Unavailable" |};
     JSON_parse := parse;
     chats_create_throws := None |}.

(** The API answers and [ai.chats.create] throws. *)
Definition no_session : AnalysisRun :=
  {| generateContent := Normal {| response_text := Some (lease_json 1) |};
     JSON_parse := parse;
     chats_create_throws := Some {| message := lit "quota exceeded" |} |}.

Definition notes_txt : File :=
  {| name := lit "notes.txt";
     type := TEXT_PLAIN;
     file_text := Normal (lit "Tenant pays rent.");
     getDocument := Throw {| message := lit "Invalid PDF structure." |} |}.

(** A two-page PDF, each page one text item. *)
Definition hello_world : PDFDocumentProxy :=
  {| numPages := 2;
     getPage := fun i =>
       match i with
       | 1%nat => Normal [TextItem (lit "Hello")]
       | 2%nat => Normal [TextItem (lit "World")]
       | _ => Throw {| message := lit "Invalid page request." |}
       end |}.

Definition hello_world_pdf : File :=
  {| name := lit "hello.pdf";
     type := APPLICATION_PDF;
     file_text := Normal [];
     getDocument := Normal hello_world |}.

(** The page after a document was typed and analyzed with success. *)
Definition analyzed : list Event :=
  [ InputDocumentContent (lit "Tenant pays rent.");
    SubmitForm;
    AnalysisSettles 0 (answers 1) ].

(** The state after a document was typed and analyzed with success. *)
Definition analyzed_state : State :=
  analyzeDocument (Some Client) (answers 1)
    (set_form (set_documentContent (lit "Tenant pays rent.") (form initial_state))
              initial_state).

(** The same with a question typed but not yet sent. *)
Definition asking_state : State :=
  set_currentQuestion (lit "  Who pays the rent? " ++ LF) analyzed_state.

(** A follow-up question whose call was rejected, then a new draft typed:
    the chat card shows the error and holds the draft. *)
Definition chat_failed_state : State :=
  set_currentQuestion (lit "And the deposit?")
    (askFollowUpQuestion_resume (Throw {| message := lit "network timeout" |})
       (fst (askFollowUpQuestion_begin asking_state))).

(** The analyzed page, clause 1 opened, then a second analysis whose only
    clause is numbered 2. *)
Definition reanalyzed : list Event :=
  analyzed ++ [ ClickClause 1; SubmitForm; AnalysisSettles 0 (answers 2) ].

(** The analyzed page, then a text file uploaded and read. *)
Definition uploaded : list Event :=
  analyzed ++ [ ChangeFile (Some notes_txt); UploadSettles 0 ].

(** The analyzed page, a question typed and sent, its reply awaited. *)
Definition asked : list Event :=
  analyzed ++ [ InputQuestion (lit "  Who pays the rent? " ++ LF); SubmitQuestion ].

Definition page_after (es : list Event) : Page :=
  match run_user es (boot (Normal Client)) with
  | Some p => p
  | None => boot (Normal Client)
  end.

(** A question is in flight when a new analysis is submitted; the reply
    arrives before the analysis does. *)
Definition reply_during_analysis : list Event :=
  asked ++ [ SubmitForm;
             ChatSettles 0 (Normal {| response_text := Some (lit "The tenant.") |});
             AnalysisSettles 0 (answers 2) ].

(** An analysis is in flight when a file is uploaded and read, which
    re-enables the submit button; a second analysis is submitted, the first
    then succeeds and the second is rejected. *)
Definition overlapping_analyses : list Event :=
  [ InputDocumentContent (lit "Tenant pays rent.");
    SubmitForm;
    ChangeFile (Some notes_txt);
    UploadSettles 1;
    SubmitForm;
    AnalysisSettles 0 (answers 1);
    AnalysisSettles 0 unavailable ].

(** A file of a type the handler does not read. *)
Definition photo_png : File :=
  {| name := lit "photo.png";
     type := lit "image/png";
     file_text := Normal (lit "PNG");
     getDocument := Throw {| message := lit "Invalid PDF structure." |} |}.

(** A three-page PDF whose second page cannot be read. *)
Definition torn : PDFDocumentProxy :=
  {| numPages := 3;
     getPage := fun i =>
       match i with
       | 1%nat => Normal [TextItem (lit "Lease"); TextMarkedContent; TextItem (lit "terms")]
       | 3%nat => Normal [TextItem (lit "Signed")]
       | _ => Throw {| message := lit "Invalid page request." |}
       end |}.

Definition torn_pdf : File :=
  {| name := lit "torn.pdf";
     type := APPLICATION_PDF;
     file_text := Normal [];
     getDocument := Normal torn |}.

(** [toLowerCase] on strings of ASCII characters. *)
Definition ascii_toLowerCase (s : jsstring) : jsstring :=
  map (fun c => if ((65 <=? c) && (c <=? 90))%N then (c + 32)%N else c) s.

(** The constructor of the client threw; a document is typed and
    submitted, a file is uploaded and read, and the form and a question
    are submitted. *)
Definition no_key : Error := {| message := lit "An API Key must be set." |}.

Definition clientless : list Event :=
  [ InputDocumentContent (lit "Tenant pays rent."); SubmitForm;
    ChangeFile (Some notes_txt); UploadSettles 0;
    SubmitForm; SubmitQuestion ].

Definition clientless_page : Page :=
  match run_events clientless (boot (Throw no_key)) with
  | Some p => p
  | None => boot (Throw no_key)
  end.

End Sample.

(* ===================================================================== *)
(** ** Predicates of the statements *)
(* ===================================================================== *)


(** Each active clause number is a clause of the analysis in [state]. *)
Definition active_clause_valid (s : State) : Prop :=
  forall n, activeClause s = Some n ->
  exists a, analysis s = Some a /\ In n (map clause_number (clauses a)).

(** The [try] block of [analyzeDocument] threw [e] when resumed in [s]. *)
Definition analysis_fails (run : AnalysisRun) (prompt : jsstring) (s : State)
           (e : Error) : Prop :=
  fst (analyzeDocument_try run prompt s) = Throw e.

(** The [try] block of [analyzeDocument] ran to its end when resumed in [s]. *)
Definition analysis_succeeds (run : AnalysisRun) (prompt : jsstring) (s : State)
  : Prop :=
  fst (analyzeDocument_try run prompt s) = Normal tt.

(** The [try] block ends in one of five ways, told apart by how far the
    collaborators let it go. *)
Inductive try_outcome (run : AnalysisRun) (prompt : jsstring) (s : State)
  : completion unit * State -> Prop :=
| api_rejects e :
    generateContent run = Throw e ->
    try_outcome run prompt s (Throw e, s)
| text_missing :
    generateContent run = Normal {| response_text := None |} ->
    try_outcome run prompt s (Throw TypeError_trim, s)
| parse_throws raw e :
    generateContent run = Normal {| response_text := Some raw |} ->
    JSON_parse run (trim raw) = Throw e ->
    try_outcome run prompt s (Throw e, s)
| create_throws raw a e :
    generateContent run = Normal {| response_text := Some raw |} ->
    JSON_parse run (trim raw) = Normal a ->
    chats_create_throws run = Some e ->
    try_outcome run prompt s (Throw e, set_analysis (Some a) s)
| completes raw a :
    generateContent run = Normal {| response_text := Some raw |} ->
    JSON_parse run (trim raw) = Normal a ->
    chats_create_throws run = None ->
    try_outcome run prompt s
      (Normal tt,
       set_chat (Some (chat_params prompt (trim raw))) (set_analysis (Some a) s)).

(** A [sendMessage] call awaits its reply exactly while [isChatLoading]. *)
Definition chat_flag_counts (p : Page) : Prop :=
  chats_in_flight p = (if isChatLoading (state p) then 1 else 0)%nat.

(** The page of a client that was never built: nothing analyzed, no
    session, an empty transcript, and only file reads pending. *)
Definition idle_without_client (p : Page) : Prop :=
  analysis (state p) = None /\ chat (state p) = None /\
  chatHistory (state p) = [] /\ isChatLoading (state p) = false /\
  forall t, In t (pending p) -> exists file, t = UploadTask file.

(** [prompt] was built from a form whose document is not blank. *)
Definition from_form (prompt : jsstring) : Prop :=
  exists f, prompt = userPrompt f /\ ~ whitespace_only (documentContent f).

(** [session] was created from such a prompt and a trimmed response text. *)
Definition seeded (session : Chat) : Prop :=
  exists prompt raw, session = chat_params prompt (trim raw) /\ from_form prompt.

(** Every request in flight and the session in [state] have their origin
    in a form with a document that is not blank; no question in flight is
    empty. *)
Definition well_sourced (p : Page) : Prop :=
  (forall prompt, In (AnalysisTask prompt) (pending p) -> from_form prompt) /\
  (forall session, chat (state p) = Some session -> seeded session) /\
  (forall session question,
     In (ChatTask session question) (pending p) ->
     seeded session /\ question <> []).

(* ===================================================================== *)
(** ** Trimming *)
(* ===================================================================== *)

Section Trim.

Lemma trimStart_whitespace s : whitespace_only s -> trimStart s = [].
Proof.
  induction 1 as [|c s Hc _ IH]; simpl; [reflexivity|].
  rewrite Hc; exact IH.
Qed.

Lemma trimStart_nil_inv s : trimStart s = [] -> whitespace_only s.
Proof.
  induction s as [|c s IH]; simpl; intros H; [constructor|].
  destruct (is_white_space c) eqn:Hc; [|discriminate].
  constructor; [exact Hc | exact (IH H)].
Qed.

(** What [trimStart] leaves is empty or starts with a character that is
    no white space. *)
Lemma trimStart_head s c r :
  trimStart s = c :: r -> is_white_space c = false.
Proof.
  induction s as [|d s IH]; simpl; [discriminate|].
  destruct (is_white_space d) eqn:Hd; auto.
  intros H; injection H as -> _; exact Hd.
Qed.

Lemma whitespace_only_rev s : whitespace_only (rev s) -> whitespace_only s.
Proof.
  unfold whitespace_only; rewrite !Forall_forall.
  intros H c Hin; apply H, in_rev; rewrite rev_involutive; exact Hin.
Qed.

Lemma trim_whitespace_only s : whitespace_only s -> trim s = [].
Proof.
  intros H; unfold trim, trimEnd.
  rewrite (trimStart_whitespace H); reflexivity.
Qed.

Lemma trim_nil_inv s : trim s = [] -> whitespace_only s.
Proof.
  unfold trim, trimEnd; intros H.
  assert (Hrev : trimStart (rev (trimStart s)) = []).
  { rewrite <- (rev_involutive (trimStart (rev (trimStart s)))), H.
    reflexivity. }
  apply trimStart_nil_inv, whitespace_only_rev in Hrev.
  destruct (trimStart s) as [|c r] eqn:Hs.
  - apply trimStart_nil_inv, Hs.
  - apply trimStart_head in Hs.
    inversion Hrev; congruence.
Qed.

(** The guard [!text.trim()] holds exactly on the empty and the
    whitespace-only strings. *)
Lemma blank_guard s : negb (truthy (trim s)) = true <-> whitespace_only s.
Proof.
  split.
  - destruct (trim s) eqn:H; [intros _; apply trim_nil_inv, H | discriminate].
  - intros H; rewrite (trim_whitespace_only H); reflexivity.
Qed.

End Trim.

(* ===================================================================== *)
(** ** Pages a user can produce *)
(* ===================================================================== *)

Lemma run_user_reachable es :
  forall p p', user_reachable p -> run_user es p = Some p' -> user_reachable p'.
Proof.
  induction es as [|e es IH]; simpl; intros p p' Hp H.
  - injection H as <-; exact Hp.
  - destruct (enabled e p) eqn:He; [|discriminate].
    destruct (fire e p) as [q|] eqn:Hf; [|discriminate].
    apply (IH q); [|exact H].
    eapply user_reachable_fire; eassumption.
Qed.

Lemma user_reachable_reachable p : user_reachable p -> reachable p.
Proof.
  induction 1 as [ctor | p e p' _ IH _ Hf].
  - apply reachable_boot.
  - eapply reachable_fire; eassumption.
Qed.

Lemma page_after_reachable es :
  run_user es (boot (Normal Client)) <> None ->
  user_reachable (Sample.page_after es).
Proof.
  unfold Sample.page_after; intros H.
  destruct (run_user es (boot (Normal Client))) as [p|] eqn:E; [|congruence].
  exact (run_user_reachable es (user_reachable_boot _) E).
Qed.

(* ===================================================================== *)
(** ** Submitting the form *)
(* ===================================================================== *)

(** C5, as stated, fails when the client could not be built: the [!ai]
    guard returns first, and the message on show stays the start-up one. *)
Lemma blank_submit_without_client :
  let p := boot (Throw {| message := lit "An API Key must be set." |}) in
  whitespace_only (documentContent (form (state p))) /\
  error (fst (analyzeDocument_begin (ai p) (state p))) <> Some EMPTY_DOCUMENT.
Proof.
  split; [constructor | vm_compute; discriminate].
Qed.

(** C5 (amended): with the client built, submitting a document that is
    empty or white space only sends no request and sets the validation
    message, leaving every other field as it was; without the client the
    submission sends no request and writes nothing. *)
Theorem blank_document_is_rejected (ai : option GoogleGenAI) (s : State) :
  whitespace_only (documentContent (form s)) ->
  analyzeDocument_begin ai s =
    (match ai with
     | Some _ => set_error (Some EMPTY_DOCUMENT) s
     | None => s
     end, None).
Proof.
  intros H; unfold analyzeDocument_begin.
  destruct ai as [c|]; [|reflexivity].
  apply blank_guard in H; rewrite H; reflexivity.
Qed.

Lemma blank_document_is_rejected_witness :
  let s := set_form (set_documentContent (lit "  " ++ LF) (form initial_state))
                    initial_state in
  analyzeDocument_begin (Some Client) s = (set_error (Some EMPTY_DOCUMENT) s, None).
Proof.
  intros s.
  apply (blank_document_is_rejected (Some Client) s).
  repeat constructor.
Defined.

(* ===================================================================== *)
(** ** The accordion *)
(* ===================================================================== *)





(* ===================================================================== *)
(** ** Follow-up questions *)
(* ===================================================================== *)

Lemma askFollowUpQuestion_begin_sends s session :
  chat s = Some session ->
  trim (currentQuestion s) <> [] ->
  isChatLoading s = false ->
  askFollowUpQuestion_begin s =
    (set_currentQuestion []
       (push {| role := user; text := Some (trim (currentQuestion s)) |}
          (set_chatError None (set_isChatLoading true s))),
     Some (session, trim (currentQuestion s))).
Proof.
  intros Hc Hq Hl; unfold askFollowUpQuestion_begin.
  rewrite Hc, Hl.
  destruct (trim (currentQuestion s)) eqn:E; [congruence|reflexivity].
Qed.

Lemma askFollowUpQuestion_begin_inv s s' session sent :
  askFollowUpQuestion_begin s = (s', Some (session, sent)) ->
  chat s = Some session /\ trim (currentQuestion s) <> [] /\
  isChatLoading s = false.
Proof.
  unfold askFollowUpQuestion_begin.
  destruct (chat s) as [c|]; [|discriminate].
  destruct (trim (currentQuestion s)) as [|u r] eqn:E; simpl; [discriminate|].
  destruct (isChatLoading s); [discriminate|].
  intros H; injection H as _ <- _.
  repeat split; discriminate.
Qed.

(** C10: with no chat session, or a pending question that trims to the
    empty string, [askFollowUpQuestion] changes no field and sends nothing;
    a question is sent exactly when there is a session, the trimmed question
    is not empty and no turn is in flight, and then both the message sent
    and the user turn appended to the transcript are the trimmed question. *)
Theorem askFollowUpQuestion_sends_trimmed (s : State) :
  (chat s = None \/ trim (currentQuestion s) = [] ->
   askFollowUpQuestion_begin s = (s, None)) /\
  (forall s' session sent,
     askFollowUpQuestion_begin s = (s', Some (session, sent)) ->
     chat s = Some session /\
     sent = trim (currentQuestion s) /\
     chatHistory s' =
       chatHistory s ++ [ {| role := user; text := Some (trim (currentQuestion s)) |} ]) /\
  (forall session,
     chat s = Some session -> trim (currentQuestion s) <> [] ->
     isChatLoading s = false ->
     exists s',
       askFollowUpQuestion_begin s = (s', Some (session, trim (currentQuestion s)))).
Proof.
  split; [|split].
  - unfold askFollowUpQuestion_begin.
    intros [H|H]; rewrite H; [reflexivity|].
    destruct (chat s); reflexivity.
  - intros s' session sent H.
    destruct (askFollowUpQuestion_begin_inv _ H) as (Hc & Hq & Hl).
    rewrite (askFollowUpQuestion_begin_sends _ Hc Hq Hl) in H.
    injection H as <- <-; auto.
  - intros session Hc Hq Hl; eexists.
    apply askFollowUpQuestion_begin_sends; assumption.
Qed.

Lemma askFollowUpQuestion_sends_trimmed_witness :
  exists s',
    askFollowUpQuestion_begin Sample.asking_state =
      (s', Some (chat_params (userPrompt (form Sample.asking_state))
                             (Sample.lease_json 1),
                 lit "Who pays the rent?")).
Proof.
  apply (proj2 (proj2 (askFollowUpQuestion_sends_trimmed Sample.asking_state))).
  - reflexivity.
  - vm_compute; discriminate.
  - reflexivity.
Defined.

(* ===================================================================== *)
(** ** The analysis call *)
(* ===================================================================== *)

Section Analysis.

Variable run : AnalysisRun.
Variable prompt : jsstring.

Lemma analyzeDocument_try_outcome s :
  try_outcome run prompt s (analyzeDocument_try run prompt s).
Proof.
  unfold analyzeDocument_try, bind, lift, modify, ret, throw, chats_create.
  destruct (generateContent run) as [[[raw|]]|e] eqn:Hg; simpl.
  - destruct (JSON_parse run (trim raw)) as [a|e] eqn:Hp; simpl.
    + destruct (chats_create_throws run) as [e|] eqn:Hc; simpl.
      * eapply create_throws; eassumption.
      * eapply completes; eassumption.
    + eapply parse_throws; eassumption.
  - apply text_missing; assumption.
  - apply api_rejects; assumption.
Qed.

Lemma analyzeDocument_resume_eq s :
  analyzeDocument_resume run prompt s =
  match analyzeDocument_try run prompt s with
  | (Normal _, s') => set_isLoading false s'
  | (Throw e, s') => set_isLoading false (set_error (Some (analysis_error e)) s')
  end.
Proof.
  unfold analyzeDocument_resume, try_catch_finally.
  destruct (analyzeDocument_try run prompt s) as [[u|e] s']; reflexivity.
Qed.

(** The fields the second half of [analyzeDocument] never writes. *)
Lemma analyzeDocument_resume_frame s :
  let s' := analyzeDocument_resume run prompt s in
  activeClause s' = activeClause s /\ form s' = form s /\
  chatHistory s' = chatHistory s /\ isChatLoading s' = isChatLoading s /\
  chatError s' = chatError s /\ currentQuestion s' = currentQuestion s.
Proof.
  cbv zeta; rewrite analyzeDocument_resume_eq.
  destruct (analyzeDocument_try_outcome s); repeat split.
Qed.

End Analysis.

(** The fields the first half of [analyzeDocument] never writes. *)
Lemma analyzeDocument_begin_frame ai s :
  let s' := fst (analyzeDocument_begin ai s) in
  activeClause s' = activeClause s /\ form s' = form s /\
  isChatLoading s' = isChatLoading s /\
  chatError s' = chatError s /\ currentQuestion s' = currentQuestion s.
Proof.
  unfold analyzeDocument_begin.
  destruct ai; [|repeat split].
  destruct (negb _); repeat split.
Qed.

Lemma analyzeDocument_begin_request ai s s1 request :
  analyzeDocument_begin ai s = (s1, Some request) ->
  s1 = set_chatHistory [] (set_chat None (set_error None
         (set_analysis None (set_isLoading true s)))) /\
  contents request = userPrompt (form s).
Proof.
  unfold analyzeDocument_begin.
  destruct ai; [|discriminate].
  destruct (negb _); [discriminate|].
  intros H; injection H as <- <-; split; reflexivity.
Qed.

Lemma contains_cause e : contains (analysis_error e) (message e).
Proof.
  exists (lit "An error occurred during analysis: "), (lit ". Please try again.").
  reflexivity.
Qed.

(** C2, as stated, fails in two ways.  When the response parses and
    [ai.chats.create] then throws, the parsed analysis is already in [state]
    and the [catch] block does not take it out.  And when two calls overlap
    (a file read in between re-enables the submit button), the rejection of
    the later call leaves the analysis the earlier one stored. *)
Lemma partial_analysis_is_kept :
  (let s := set_form (set_documentContent (lit "Tenant pays rent.")
                                          (form initial_state)) initial_state in
   let prompt := userPrompt (form s) in
   let s1 := fst (analyzeDocument_begin (Some Client) s) in
   analysis_fails Sample.no_session prompt s1 {| message := lit "quota exceeded" |} /\
   analysis (analyzeDocument (Some Client) Sample.no_session s)
     = Some (Sample.lease 1)) /\
  (let p := Sample.page_after Sample.overlapping_analyses in
   user_reachable p /\
   pending p = [] /\
   analysis (state p) = Some (Sample.lease 1) /\
   error (state p) =
     Some (lit "An error occurred during analysis: 503 Service Unavailable. Please try again.")).
Proof.
  cbv zeta; split; [split|split; [|split; [|split]]].
  - vm_compute; reflexivity.
  - vm_compute; reflexivity.
  - apply page_after_reachable; vm_compute; discriminate.
  - vm_compute; reflexivity.
  - vm_compute; reflexivity.
  - vm_compute; reflexivity.
Qed.

(** C2 (amended): when the [try] block of a call of [analyzeDocument] that
    no other handler interleaves with throws, the call ends with the analysis error set to the one message that embeds the
    cause, the chat error untouched and the loading flag cleared; and when
    the throw is not that of [ai.chats.create] (the API call was rejected,
    the response had no text, or [JSON.parse] threw), [state.analysis] is
    null. *)
Theorem failed_analysis_reports_cause
        (ai : option GoogleGenAI) (run : AnalysisRun) (s s1 : State)
        (request : GenerateContentParameters) (e : Error) :
  analyzeDocument_begin ai s = (s1, Some request) ->
  analysis_fails run (contents request) s1 e ->
  let s' := analyzeDocument ai run s in
  error s' = Some (analysis_error e) /\
  contains (analysis_error e) (message e) /\
  isLoading s' = false /\
  chatError s' = chatError s /\
  (chats_create_throws run = None -> analysis s' = None).
Proof.
  intros Hb Hf; unfold analyzeDocument; rewrite Hb.
  destruct (analyzeDocument_begin_request _ _ Hb) as [-> _].
  unfold analysis_fails in Hf; cbv zeta.
  rewrite analyzeDocument_resume_eq.
  destruct (analyzeDocument_try_outcome run (contents request)
              (set_chatHistory [] (set_chat None (set_error None
                 (set_analysis None (set_isLoading true s))))));
    simpl in Hf; try discriminate; injection Hf as ->;
    (repeat split; try apply contains_cause); intros; congruence.
Qed.

Lemma failed_analysis_reports_cause_witness :
  let s := set_form (set_documentContent (lit "Tenant pays rent.")
                                         (form initial_state)) initial_state in
  let s' := analyzeDocument (Some Client) Sample.unavailable s in
  error s' =
    Some (lit "An error occurred during analysis: 503 Service Unavailable. Please try again.") /\
  isLoading s' = false /\ analysis s' = None.
Proof.
  intros s s'.
  destruct (@failed_analysis_reports_cause (Some Client) Sample.unavailable s
              (fst (analyzeDocument_begin (Some Client) s))
              {| gen_model := GEMINI; contents := userPrompt (form s);
                 systemInstruction := analysis_systemInstruction;
                 responseMimeType := lit "application/json" |}
              {| message := lit "503 Service Unavailable" |}
              eq_refl eq_refl) as (He & _ & Hl & _ & Ha).
  split; [exact He | split; [exact Hl | exact (Ha eq_refl)]].
Defined.

(** C3, as stated, fails on the model turn of the seed history: it is not
    the response text as received, nor that text trimmed, but the trimmed
    text after a fixed preamble. *)
Lemma seed_model_turn_is_not_raw_response :
  let s := set_form (set_documentContent (lit "Tenant pays rent.")
                                         (form initial_state)) initial_state in
  let raw := Sample.lease_json 1 ++ LF in
  let s' := analyzeDocument (Some Client) (Sample.answers 1) s in
  generateContent (Sample.answers 1) = Normal {| response_text := Some raw |} /\
  analysis_succeeds (Sample.answers 1) (userPrompt (form s))
                    (fst (analyzeDocument_begin (Some Client) s)) /\
  option_map history (chat s') <>
    Some [ {| content_role := user; parts := [userPrompt (form s)] |};
           {| content_role := model; parts := [raw] |} ] /\
  option_map history (chat s') <>
    Some [ {| content_role := user; parts := [userPrompt (form s)] |};
           {| content_role := model; parts := [trim raw] |} ].
Proof.
  cbv zeta; split; [reflexivity|split; [vm_compute; reflexivity|]].
  split; vm_compute; intros H; discriminate H.
Qed.

(** C3 (amended): a call of [analyzeDocument] that no other handler
    interleaves with and whose [try] block completes ends with no error, an empty transcript, the loading flag cleared, the
    parsed analysis in place, and a chat session seeded with exactly two
    turns: the user prompt that was sent, and a model turn made of the fixed
    preamble followed by the trimmed response text. *)
Theorem successful_analysis_seeds_session
        (ai : option GoogleGenAI) (run : AnalysisRun) (s s1 : State)
        (request : GenerateContentParameters) :
  analyzeDocument_begin ai s = (s1, Some request) ->
  analysis_succeeds run (contents request) s1 ->
  let s' := analyzeDocument ai run s in
  contents request = userPrompt (form s) /\
  error s' = None /\ chatHistory s' = [] /\ isLoading s' = false /\
  exists raw a,
    generateContent run = Normal {| response_text := Some raw |} /\
    JSON_parse run (trim raw) = Normal a /\
    analysis s' = Some a /\
    option_map history (chat s') =
      Some [ {| content_role := user; parts := [contents request] |};
             {| content_role := model;
                parts := [MODEL_TURN_PREAMBLE ++ trim raw] |} ].
Proof.
  intros Hb Hs; unfold analyzeDocument; rewrite Hb.
  destruct (analyzeDocument_begin_request _ _ Hb) as [-> Hc].
  unfold analysis_succeeds in Hs; cbv zeta.
  rewrite analyzeDocument_resume_eq.
  destruct (analyzeDocument_try_outcome run (contents request)
              (set_chatHistory [] (set_chat None (set_error None
                 (set_analysis None (set_isLoading true s))))))
    as [ | | | | raw a Hg Hp Hn ]; simpl in Hs; try discriminate.
  split; [exact Hc|].
  do 3 (split; [reflexivity|]).
  exists raw, a; auto.
Qed.

Lemma successful_analysis_seeds_session_witness :
  let s := set_form (set_documentContent (lit "Tenant pays rent.")
                                         (form initial_state)) initial_state in
  let s' := analyzeDocument (Some Client) (Sample.answers 1) s in
  error s' = None /\ chatHistory s' = [] /\ isLoading s' = false.
Proof.
  intros s s'.
  destruct (@successful_analysis_seeds_session
              (Some Client) (Sample.answers 1) s
              (fst (analyzeDocument_begin (Some Client) s))
              {| gen_model := GEMINI; contents := userPrompt (form s);
                 systemInstruction := analysis_systemInstruction;
                 responseMimeType := lit "application/json" |}
              eq_refl eq_refl) as (_ & He & Hh & Hl & _).
  split; [exact He | split; [exact Hh | exact Hl]].
Defined.

(** C9: [analyzeDocument] writes neither [chatError] nor [currentQuestion],
    in either of its halves; so after a successful new analysis the chat
    card of the new session holds the old draft and, when the old chat
    error is a non-empty message, shows that message. *)
Theorem analyzeDocument_keeps_chat_error_and_draft
        (ai : option GoogleGenAI) (run : AnalysisRun) (s : State) :
  let s' := analyzeDocument ai run s in
  (chatError s' = chatError s /\ currentQuestion s' = currentQuestion s) /\
  (chatError (fst (analyzeDocument_begin ai s)) = chatError s /\
   currentQuestion (fst (analyzeDocument_begin ai s)) = currentQuestion s) /\
  (forall prompt,
     chatError (analyzeDocument_resume run prompt s) = chatError s /\
     currentQuestion (analyzeDocument_resume run prompt s) = currentQuestion s) /\
  (forall s1 request,
     analyzeDocument_begin ai s = (s1, Some request) ->
     analysis_succeeds run (contents request) s1 ->
     exists panel,
       shown_chat s' = Some panel /\
       input_value panel = currentQuestion s /\
       (truthy_opt (chatError s) = true ->
        chat_error_message panel = chatError s)).
Proof.
  assert (Hbegin : chatError (fst (analyzeDocument_begin ai s)) = chatError s /\
                   currentQuestion (fst (analyzeDocument_begin ai s)) =
                     currentQuestion s).
  { destruct (analyzeDocument_begin_frame ai s) as (_ & _ & _ & He & Hq).
    split; assumption. }
  assert (Hresume : forall prompt t,
             chatError (analyzeDocument_resume run prompt t) = chatError t /\
             currentQuestion (analyzeDocument_resume run prompt t) =
               currentQuestion t).
  { intros prompt t.
    destruct (analyzeDocument_resume_frame run prompt t)
      as (_ & _ & _ & _ & He & Hq).
    split; assumption. }
  cbv zeta; split; [|split; [exact Hbegin|split; [intros; apply Hresume|]]].
  - unfold analyzeDocument.
    destruct (analyzeDocument_begin ai s) as [s1 [request|]];
      simpl in Hbegin; [|exact Hbegin].
    destruct (Hresume (contents request) s1) as [He Hq].
    destruct Hbegin as [He1 Hq1]; split; congruence.
  - intros s1 request Hb Hs; unfold analyzeDocument; rewrite Hb.
    destruct (analyzeDocument_begin_request _ _ Hb) as [-> _].
    unfold analysis_succeeds in Hs.
    rewrite analyzeDocument_resume_eq.
    destruct (analyzeDocument_try_outcome run (contents request)
                (set_chatHistory [] (set_chat None (set_error None
                   (set_analysis None (set_isLoading true s))))));
      simpl in Hs; try discriminate.
    eexists; split; [reflexivity|]; simpl; split; [reflexivity|].
    intros Ht; rewrite Ht; reflexivity.
Qed.

Lemma analyzeDocument_keeps_chat_error_and_draft_witness :
  let s' := analyzeDocument (Some Client) (Sample.answers 2)
                            Sample.chat_failed_state in
  exists panel,
    shown_chat s' = Some panel /\
    input_value panel = lit "And the deposit?" /\
    chat_error_message panel =
      Some (lit "Sorry, an error occurred: network timeout").
Proof.
  intros s'.
  destruct (proj2 (proj2 (proj2
              (analyzeDocument_keeps_chat_error_and_draft
                 (Some Client) (Sample.answers 2) Sample.chat_failed_state)))
              (fst (analyzeDocument_begin (Some Client) Sample.chat_failed_state))
              {| gen_model := GEMINI;
                 contents := userPrompt (form Sample.chat_failed_state);
                 systemInstruction := analysis_systemInstruction;
                 responseMimeType := lit "application/json" |}
              eq_refl eq_refl) as (panel & Hp & Hi & He).
  exists panel; split; [exact Hp | split; [exact Hi | exact (He eq_refl)]].
Defined.

(* ===================================================================== *)
(** ** Uploading a file *)
(* ===================================================================== *)

Lemma item_str_TextItem (strs : list jsstring) :
  map item_str (map TextItem strs) = strs.
Proof.
  induction strs as [|x l IH]; simpl; [reflexivity|].
  rewrite IH; reflexivity.
Qed.

(** The loop visits the pages in the order 1..N and appends each page's
    text to [pageTexts]. *)
Lemma pages_loop_collects pdf (pages : list (list Item)) :
  forall i pageTexts,
    (forall k, (k < List.length pages)%nat ->
               getPage pdf (i + k) = Normal (nth k pages [])) ->
    pages_loop pdf (List.length pages) i pageTexts =
      Normal (pageTexts ++ map pageText pages).
Proof.
  induction pages as [|page rest IH]; intros i pageTexts H; simpl.
  - rewrite app_nil_r; reflexivity.
  - rewrite <- (Nat.add_0_r i) at 1.
    rewrite (H 0%nat) by (simpl; lia); simpl.
    rewrite IH.
    + rewrite <- app_assoc; reflexivity.
    + intros k Hk.
      replace (S i + k)%nat with (i + S k)%nat by lia.
      apply (H (S k)); simpl; lia.
Qed.

(** The fields neither half of [handleFileUpload] writes: among them the
    chat session, the transcript and the active clause. *)
Lemma handleFileUpload_resume_frame file s :
  let s' := handleFileUpload_resume file s in
  analysis s' = analysis s /\ activeClause s' = activeClause s /\
  chat s' = chat s /\ chatHistory s' = chatHistory s /\
  isChatLoading s' = isChatLoading s /\ chatError s' = chatError s /\
  currentQuestion s' = currentQuestion s.
Proof.
  unfold handleFileUpload_resume, try_catch_finally, handleFileUpload_try,
    bind, lift, modify.
  destruct (read_file file); repeat split.
Qed.

Lemma handleFileUpload_begin_frame files s :
  let s' := fst (handleFileUpload_begin files s) in
  activeClause s' = activeClause s /\
  chat s' = chat s /\ chatHistory s' = chatHistory s /\
  isChatLoading s' = isChatLoading s /\ chatError s' = chatError s /\
  currentQuestion s' = currentQuestion s.
Proof.
  unfold handleFileUpload_begin.
  destruct files as [file|]; [|repeat split].
  destruct (suspends file); [repeat split|].
  cbn [fst].
  destruct (handleFileUpload_resume_frame file
              (set_analysis None
                 (set_form (set_documentContent [] (form s))
                    (set_error None (set_isLoading true s)))))
    as (_ & H1 & H2 & H3 & H4 & H5 & H6).
  repeat split; assumption.
Qed.

(** C6: a PDF that opens, has N pages, and whose page i (from 1) yields the
    text items [nth (i-1) pages] is ingested as the page texts joined by
    two line feeds, each page text being its items joined by one space; the
    upload ends with that string as the document, no error and the loading
    flag cleared. *)
Theorem pdf_pages_are_joined
        (file : File) (pdf : PDFDocumentProxy)
        (pages : list (list jsstring)) (s : State) :
  type file = APPLICATION_PDF ->
  getDocument file = Normal pdf ->
  numPages pdf = List.length pages ->
  (forall k, (k < List.length pages)%nat ->
             getPage pdf (S k) = Normal (map TextItem (nth k pages []))) ->
  let s' := handleFileUpload (Some file) s in
  documentContent (form s') =
    join (LF ++ LF) (map (join (lit " ")) pages) /\
  error s' = None /\ isLoading s' = false.
Proof.
  intros Ht Hd Hn Hp.
  assert (Hread : read_file file =
                  Normal (join (LF ++ LF) (map (join (lit " ")) pages))).
  { unfold read_file; rewrite Ht, Hd, Hn; simpl.
    rewrite <- (length_map (map TextItem) pages).
    rewrite pages_loop_collects.
    - simpl; rewrite map_map.
      do 2 f_equal; apply map_ext; intros strs.
      unfold pageText; rewrite item_str_TextItem; reflexivity.
    - intros k Hk; rewrite length_map in Hk.
      simpl; rewrite (Hp k Hk).
      rewrite <- (map_nth (map TextItem)); reflexivity. }
  unfold handleFileUpload, handleFileUpload_begin, suspends; rewrite Ht.
  cbv zeta; simpl.
  unfold handleFileUpload_resume, try_catch_finally, handleFileUpload_try,
    bind, lift, modify.
  rewrite Hread; repeat split.
Qed.

Lemma pdf_pages_are_joined_witness :
  documentContent
    (form (handleFileUpload (Some Sample.hello_world_pdf) initial_state))
  = lit "Hello" ++ LF ++ LF ++ lit "World".
Proof.
  refine (proj1 (@pdf_pages_are_joined Sample.hello_world_pdf Sample.hello_world
                   [[lit "Hello"]; [lit "World"]] initial_state
                   eq_refl eq_refl eq_refl _)).
  intros [|[|k]] Hk; [reflexivity | reflexivity | simpl in Hk; lia].
Defined.

(* ===================================================================== *)
(** ** One chat turn at a time *)
(* ===================================================================== *)

Lemma take_chats k :
  forall l t rest,
    take k l = Some (t, rest) ->
    List.length (filter is_chat l) =
      ((if is_chat t then 1 else 0) + List.length (filter is_chat rest))%nat.
Proof.
  induction k as [|k IH]; intros [|t0 l] t rest H; simpl in H; try discriminate.
  - injection H as <- <-; simpl.
    destruct (is_chat t0); reflexivity.
  - destruct (take k l) as [[t' rest']|] eqn:E; [|discriminate].
    injection H as <- <-; simpl.
    specialize (IH _ _ _ E).
    destruct (is_chat t0), (is_chat t'); simpl in *; lia.
Qed.

Lemma chats_in_flight_suspend s t p :
  chats_in_flight (suspend s t p) =
  (chats_in_flight p +
   match t with Some t => if is_chat t then 1 else 0 | None => 0 end)%nat.
Proof.
  unfold chats_in_flight, suspend.
  destruct t as [t|]; simpl; [|lia].
  rewrite filter_app, length_app; simpl.
  destruct (is_chat t); reflexivity.
Qed.

Lemma askFollowUpQuestion_begin_loading s :
  isChatLoading s = true -> askFollowUpQuestion_begin s = (s, None).
Proof.
  intros H; unfold askFollowUpQuestion_begin; rewrite H.
  destruct (chat s); [rewrite orb_true_r|]; reflexivity.
Qed.

Lemma askFollowUpQuestion_resume_loading reply s :
  isChatLoading (askFollowUpQuestion_resume reply s) = false.
Proof.
  unfold askFollowUpQuestion_resume, try_catch_finally, askFollowUpQuestion_try,
    bind, lift, modify.
  destruct reply; reflexivity.
Qed.

Lemma chat_flag_counts_fire e p p' :
  chat_flag_counts p -> fire e p = Some p' -> chat_flag_counts p'.
Proof.
  unfold chat_flag_counts; intros Hp Hf.
  destruct e; simpl in Hf.
  1-6: injection Hf as <-; exact Hp.
  - (* SubmitForm *)
    pose proof (analyzeDocument_begin_frame (ai p) (state p)) as (_ & _ & Hl & _).
    destruct (analyzeDocument_begin (ai p) (state p)) as [s request].
    injection Hf as <-; rewrite chats_in_flight_suspend.
    simpl in Hl.
    replace (state (suspend s _ p)) with s by (destruct request; reflexivity).
    rewrite Hl, Hp; destruct request; simpl; lia.
  - (* ChangeFile *)
    pose proof (handleFileUpload_begin_frame files (state p))
      as (_ & _ & _ & Hl & _).
    destruct (handleFileUpload_begin files (state p)) as [s file].
    injection Hf as <-; rewrite chats_in_flight_suspend.
    simpl in Hl.
    replace (state (suspend s _ p)) with s by (destruct file; reflexivity).
    rewrite Hl, Hp; destruct file; simpl; lia.
  - (* ClickClause *)
    injection Hf as <-; exact Hp.
  - (* SubmitQuestion *)
    destruct (isChatLoading (state p)) eqn:Hl.
    + rewrite (askFollowUpQuestion_begin_loading _ Hl) in Hf.
      injection Hf as <-; simpl.
      unfold chats_in_flight in *; simpl; rewrite Hl; exact Hp.
    + destruct (askFollowUpQuestion_begin (state p)) as [s [[session sent]|]] eqn:Hb.
      * destruct (askFollowUpQuestion_begin_inv _ Hb) as (Hc & Hq & _).
        rewrite (askFollowUpQuestion_begin_sends _ Hc Hq Hl) in Hb.
        injection Hb as <- _.
        injection Hf as <-.
        unfold chats_in_flight in *; simpl.
        rewrite filter_app, length_app, Hp; reflexivity.
      * assert (Hs : isChatLoading s = false).
        { unfold askFollowUpQuestion_begin in Hb.
          destruct (chat (state p)); [|injection Hb as <-; exact Hl].
          destruct (negb _ || _); [|discriminate].
          injection Hb as <-; exact Hl. }
        injection Hf as <-; unfold chats_in_flight in *; simpl.
        rewrite Hs; exact Hp.
  - (* AnalysisSettles *)
    destruct (take k (pending p)) as [[[prompt| |] rest]|] eqn:Ht;
      try discriminate.
    injection Hf as <-; unfold chats_in_flight in *; simpl.
    destruct (analyzeDocument_resume_frame run prompt (state p))
      as (_ & _ & _ & Hl & _).
    rewrite Hl, <- Hp, (take_chats _ _ Ht); reflexivity.
  - (* ChatSettles *)
    destruct (take k (pending p)) as [[[|session question|] rest]|] eqn:Ht;
      try discriminate.
    injection Hf as <-; unfold chats_in_flight in *; simpl.
    rewrite askFollowUpQuestion_resume_loading.
    rewrite (take_chats _ _ Ht) in Hp; simpl in Hp.
    destruct (isChatLoading (state p)); lia.
  - (* UploadSettles *)
    destruct (take k (pending p)) as [[[| |file] rest]|] eqn:Ht;
      try discriminate.
    injection Hf as <-; unfold chats_in_flight in *; simpl.
    destruct (handleFileUpload_resume_frame file (state p))
      as (_ & _ & _ & _ & Hl & _).
    rewrite Hl, <- Hp, (take_chats _ _ Ht); reflexivity.
Qed.

Lemma reachable_chat_flag_counts p : reachable p -> chat_flag_counts p.
Proof.
  induction 1 as [ctor | p e p' _ IH Hf].
  - destruct ctor; reflexivity.
  - eapply chat_flag_counts_fire; eassumption.
Qed.

(** C7: on every page the handlers can produce, at most one chat request
    awaits its reply, and one does exactly while [isChatLoading]; while it
    does, submitting a question changes nothing: no field of [state], hence
    not the transcript, and no request is added. *)
Theorem one_chat_turn_in_flight (p : Page) :
  reachable p ->
  (chats_in_flight p <= 1)%nat /\
  (isChatLoading (state p) = true <-> chats_in_flight p = 1%nat) /\
  (isChatLoading (state p) = true ->
   askFollowUpQuestion_begin (state p) = (state p, None) /\
   fire SubmitQuestion p = Some p).
Proof.
  intros Hr; pose proof (reachable_chat_flag_counts Hr) as Hc.
  unfold chat_flag_counts in Hc.
  split; [|split].
  - rewrite Hc; destruct (isChatLoading (state p)); lia.
  - rewrite Hc; destruct (isChatLoading (state p)); split;
      congruence || discriminate.
  - intros Hl; split; [apply askFollowUpQuestion_begin_loading, Hl|].
    simpl; rewrite (askFollowUpQuestion_begin_loading _ Hl).
    destruct p; reflexivity.
Qed.

Lemma one_chat_turn_in_flight_witness :
  let p := Sample.page_after Sample.asked in
  chats_in_flight p = 1%nat /\ fire SubmitQuestion p = Some p.
Proof.
  intros p.
  assert (Hr : reachable p).
  { apply user_reachable_reachable, page_after_reachable.
    vm_compute; discriminate. }
  destruct (one_chat_turn_in_flight Hr) as (_ & Hiff & Hnoop).
  assert (Hl : isChatLoading (state p) = true) by reflexivity.
  split; [exact (proj1 Hiff Hl) | exact (proj2 (Hnoop Hl))].
Defined.

(* ===================================================================== *)
(** ** The chat session and the analysis *)
(* ===================================================================== *)

(** C1 (the code at the failing input): [handleFileUpload] clears
    [state.analysis] and leaves [state.chat] and [state.chatHistory] as they
    are, where [analyzeDocument] clears all three; so uploading a file after
    a successful analysis gives a page whose chat session is there and whose
    analysis is not. *)
Theorem upload_keeps_chat_session :
  (forall files s,
     chat (handleFileUpload files s) = chat s /\
     chatHistory (handleFileUpload files s) = chatHistory s) /\
  (forall file s, analysis (handleFileUpload (Some file) s) = None) /\
  (forall ai s s1 request,
     analyzeDocument_begin ai s = (s1, Some request) ->
     analysis s1 = None /\ chat s1 = None /\ chatHistory s1 = []) /\
  (let p := Sample.page_after Sample.uploaded in
   user_reachable p /\
   analysis (state p) = None /\
   chat (state p) =
     Some (chat_params (userPrompt (form Sample.analyzed_state))
                       (Sample.lease_json 1))).
Proof.
  split; [|split; [|split]].
  - intros files s; unfold handleFileUpload.
    pose proof (handleFileUpload_begin_frame files s) as (_ & Hc & Hh & _).
    destruct (handleFileUpload_begin files s) as [s1 [file|]]; simpl in Hc, Hh.
    + destruct (handleFileUpload_resume_frame file s1) as (_ & _ & Hc' & Hh' & _).
      split; congruence.
    + split; assumption.
  - intros file s; unfold handleFileUpload, handleFileUpload_begin.
    destruct (suspends file); cbv beta iota zeta;
      apply (handleFileUpload_resume_frame file
               (set_analysis None
                  (set_form (set_documentContent [] (form s))
                     (set_error None (set_isLoading true s))))).
  - intros ai s s1 request Hb.
    destruct (analyzeDocument_begin_request _ _ Hb) as [-> _].
    repeat split.
  - cbv zeta; split; [|split].
    + apply page_after_reachable; vm_compute; discriminate.
    + vm_compute; reflexivity.
    + vm_compute; reflexivity.
Qed.

(* ===================================================================== *)
(** ** The active clause and the analysis *)
(* ===================================================================== *)

(** C4, as stated, fails once the analysis is replaced: the clause opened
    under the first analysis stays the active one under a second analysis
    that has no clause of that number. *)
Lemma active_clause_outlives_analysis :
  ~ (forall p, user_reachable p -> active_clause_valid (state p)).
Proof.
  intros H.
  assert (Hr : user_reachable (Sample.page_after Sample.reanalyzed)).
  { apply page_after_reachable; vm_compute; discriminate. }
  destruct (H _ Hr 1%Z) as (a & Ha & Hin); [vm_compute; reflexivity|].
  assert (Hs : analysis (state (Sample.page_after Sample.reanalyzed)) =
               Some (Sample.lease 2)) by (vm_compute; reflexivity).
  rewrite Hs in Ha; injection Ha as <-.
  simpl in Hin; destruct Hin as [Hin|[]]; discriminate Hin.
Qed.

Lemma shown_clauses_in s n :
  existsb (Z.eqb n) (shown_clauses s) = true ->
  exists a, analysis s = Some a /\ In n (map clause_number (clauses a)).
Proof.
  unfold shown_clauses, renderAnalysis.
  destruct (isLoading s); [discriminate|].
  assert (H : existsb (Z.eqb n)
                match analysis s with
                | Some a =>
                  map (fun i => clause_number (item_clause i)) (renderAccordion s a)
                | None => []
                end = true ->
              exists a, analysis s = Some a /\
                        In n (map clause_number (clauses a))).
  { destruct (analysis s) as [a|]; [|discriminate].
    intros H; exists a; split; [reflexivity|].
    apply existsb_exists in H; destruct H as (m & Hin & Hm).
    apply Z.eqb_eq in Hm; subst m.
    unfold renderAccordion in Hin; rewrite map_map in Hin; exact Hin. }
  destruct (error s) as [[|c m]|]; [| discriminate |];
    destruct (analysis s); auto.
Qed.

(** C4 (amended): [activeClause] is written by [toggleClause] alone.  A
    click the page offers sets it to none or to the clicked number, which is
    a clause number of the analysis then in [state]; every other event,
    among them those that discard or replace the analysis, leaves it as it
    was. *)
Theorem active_clause_written_by_toggle_only (p p' : Page) (e : Event) :
  enabled e p = true ->
  fire e p = Some p' ->
  match e with
  | ClickClause n =>
    analysis (state p') = analysis (state p) /\
    forall m, activeClause (state p') = Some m ->
              m = n /\
              exists a, analysis (state p') = Some a /\
                        In m (map clause_number (clauses a))
  | _ => activeClause (state p') = activeClause (state p)
  end.
Proof.
  intros He Hf; destruct e; simpl in Hf.
  1-6: injection Hf as <-; reflexivity.
  - pose proof (analyzeDocument_begin_frame (ai p) (state p)) as (Ha & _).
    destruct (analyzeDocument_begin (ai p) (state p)) as [s request].
    injection Hf as <-; destruct request; exact Ha.
  - pose proof (handleFileUpload_begin_frame files (state p)) as (Ha & _).
    destruct (handleFileUpload_begin files (state p)) as [s file].
    injection Hf as <-; destruct file; exact Ha.
  - injection Hf as <-; simpl in *.
    split; [reflexivity|]; intros m Hm.
    assert (m = clauseNumber).
    { destruct (option_Z_eqb _ _); congruence. }
    subst m; split; [reflexivity|].
    apply shown_clauses_in, He.
  - assert (Ha : activeClause (fst (askFollowUpQuestion_begin (state p))) =
                 activeClause (state p)).
    { unfold askFollowUpQuestion_begin.
      destruct (chat (state p)); [|reflexivity].
      destruct (negb _ || _); reflexivity. }
    destruct (askFollowUpQuestion_begin (state p)) as [s sent].
    injection Hf as <-; destruct sent; exact Ha.
  - destruct (take k (pending p)) as [[[prompt| |] rest]|]; try discriminate.
    injection Hf as <-; simpl.
    apply (analyzeDocument_resume_frame run prompt (state p)).
  - destruct (take k (pending p)) as [[[|session question|] rest]|];
      try discriminate.
    injection Hf as <-; simpl.
    unfold askFollowUpQuestion_resume, try_catch_finally,
      askFollowUpQuestion_try, bind, lift, modify.
    destruct reply; reflexivity.
  - destruct (take k (pending p)) as [[[| |file] rest]|]; try discriminate.
    injection Hf as <-; simpl.
    apply (handleFileUpload_resume_frame file (state p)).
Qed.

Lemma active_clause_written_by_toggle_only_witness :
  let p := Sample.page_after Sample.analyzed in
  let p' := with_state (toggleClause 1 (state p)) p in
  analysis (state p') = analysis (state p) /\
  forall m, activeClause (state p') = Some m ->
            m = 1%Z /\
            exists a, analysis (state p') = Some a /\
                      In m (map clause_number (clauses a)).
Proof.
  intros p p'.
  exact (@active_clause_written_by_toggle_only p p' (ClickClause 1)
           eq_refl eq_refl).
Defined.

(* ===================================================================== *)
(** ** Calls that overlap *)
(* ===================================================================== *)

(** The statements above on [analyzeDocument] are about a call that runs
    from its request to its resumption with no other handler in between.
    Pages a user can produce show what an overlap does. *)

(** A reply to a question of the old session that arrives while the new
    analysis is in flight is appended to the transcript the new analysis
    has just emptied, and stays there when the analysis succeeds. *)
Remark stale_reply_enters_new_transcript :
  let p := Sample.page_after Sample.reply_during_analysis in
  user_reachable p /\
  analysis (state p) = Some (Sample.lease 2) /\
  chatHistory (state p) = [ {| role := model; text := Some (lit "The tenant.") |} ].
Proof.
  cbv zeta; split; [|split].
  - apply page_after_reachable; vm_compute; discriminate.
  - vm_compute; reflexivity.
  - vm_compute; reflexivity.
Qed.

(* ===================================================================== *)
(** ** More on uploads *)
(* ===================================================================== *)

Lemma handleFileUpload_eq file s :
  handleFileUpload (Some file) s =
  handleFileUpload_resume file
    (set_analysis None
       (set_form (set_documentContent [] (form s))
          (set_error None (set_isLoading true s)))).
Proof.
  unfold handleFileUpload, handleFileUpload_begin.
  destruct (suspends file); reflexivity.
Qed.

(** X1: whatever the file, an upload ends with no analysis in [state] and
    the loading flag cleared, and the page shows no analysis: when the file
    was read, its text is the document, there is no error and the panel is
    the placeholder; when reading threw, the document is empty and the panel
    is the upload error that embeds the cause.  The four context fields are
    not touched. *)
Theorem upload_never_shows_stale_analysis (file : File) (s : State) :
  let s' := handleFileUpload (Some file) s in
  analysis s' = None /\ isLoading s' = false /\
  userRole (form s') = userRole (form s) /\
  audienceType (form s') = audienceType (form s) /\
  explanationLevel (form s') = explanationLevel (form s) /\
  explanationTone (form s') = explanationTone (form s) /\
  match read_file file with
  | Normal textContent =>
    documentContent (form s') = textContent /\ error s' = None /\
    renderAnalysis s' = Placeholder
  | Throw e =>
    documentContent (form s') = [] /\
    error s' = Some (upload_error e) /\
    contains (upload_error e) (message e) /\
    renderAnalysis s' = ErrorMessage (upload_error e)
  end.
Proof.
  cbv zeta; rewrite handleFileUpload_eq.
  unfold handleFileUpload_resume, try_catch_finally, handleFileUpload_try,
    bind, lift, modify.
  destruct (read_file file) as [t|e]; simpl.
  - repeat split.
  - repeat split.
    exists (lit "Failed to process the uploaded file: "), [].
    rewrite app_nil_r; reflexivity.
Qed.

Lemma jsstring_eqb_neq a b : a <> b -> jsstring_eqb a b = false.
Proof.
  intros H; unfold jsstring_eqb.
  destruct (list_eq_dec N.eq_dec a b); [contradiction|reflexivity].
Qed.

(** X2: a file whose type is neither [application/pdf] nor [text/plain] is
    never read: the handler runs to its end in one turn, leaving nothing
    pending, and ends with the fixed unsupported-type message, whatever the
    file holds. *)
Theorem unsupported_type_is_rejected_at_once (file : File) (p : Page) :
  type file <> APPLICATION_PDF ->
  type file <> TEXT_PLAIN ->
  read_file file = Throw UNSUPPORTED /\
  exists p',
    fire (ChangeFile (Some file)) p = Some p' /\
    pending p' = pending p /\
    isLoading (state p') = false /\
    documentContent (form (state p')) = [] /\
    error (state p') =
      Some (lit "Failed to process the uploaded file: Unsupported file type. Please upload a .txt or .pdf file.").
Proof.
  intros Hpdf Htxt.
  assert (Hread : read_file file = Throw UNSUPPORTED).
  { unfold read_file.
    rewrite (jsstring_eqb_neq Hpdf), (jsstring_eqb_neq Htxt); reflexivity. }
  split; [exact Hread|].
  simpl; unfold handleFileUpload_begin, suspends.
  rewrite (jsstring_eqb_neq Hpdf), (jsstring_eqb_neq Htxt); simpl.
  eexists; split; [reflexivity|].
  unfold handleFileUpload_resume, try_catch_finally, handleFileUpload_try,
    bind, lift, modify.
  rewrite Hread; repeat split.
Qed.

Lemma unsupported_type_is_rejected_at_once_witness :
  exists p',
    fire (ChangeFile (Some Sample.photo_png)) (Sample.page_after Sample.analyzed)
      = Some p' /\
    pending p' = [] /\ isLoading (state p') = false /\
    documentContent (form (state p')) = [].
Proof.
  destruct (@unsupported_type_is_rejected_at_once
              Sample.photo_png (Sample.page_after Sample.analyzed))
    as (_ & p' & Hf & Hp & Hl & Hd & _).
  - vm_compute; discriminate.
  - vm_compute; discriminate.
  - exists p'; split; [exact Hf | split; [exact Hp | split; [exact Hl | exact Hd]]].
Defined.

(** The loop stops at the first page that cannot be read. *)
Lemma pages_loop_first_failure pdf e :
  forall k remaining i pageTexts,
    (k < remaining)%nat ->
    (forall j, (j < k)%nat -> exists items, getPage pdf (i + j) = Normal items) ->
    getPage pdf (i + k) = Throw e ->
    pages_loop pdf remaining i pageTexts = Throw e.
Proof.
  induction k as [|k IH]; intros [|remaining] i pageTexts Hk Hok Hbad;
    try lia; simpl.
  - rewrite Nat.add_0_r in Hbad; rewrite Hbad; reflexivity.
  - destruct (Hok 0%nat) as [items Hi]; [lia|].
    rewrite Nat.add_0_r in Hi; rewrite Hi.
    apply IH; [lia| |].
    + intros j Hj; replace (S i + j)%nat with (i + S j)%nat by lia.
      apply Hok; lia.
    + replace (S i + k)%nat with (i + S k)%nat by lia; exact Hbad.
Qed.

(** X3: no partial text is kept from a PDF.  When the document does not
    open, or its pages up to some page read and that page, within the page
    count, throws, the upload ends with an empty document and the upload
    error of that first failure; the text of the pages before it is
    dropped and the pages after it are not asked for. *)
Theorem pdf_failure_keeps_no_text (file : File) (s : State) (e : Error) :
  type file = APPLICATION_PDF ->
  (getDocument file = Throw e \/
   exists pdf k,
     getDocument file = Normal pdf /\ (k < numPages pdf)%nat /\
     (forall j, (j < k)%nat -> exists items, getPage pdf (S j) = Normal items) /\
     getPage pdf (S k) = Throw e) ->
  let s' := handleFileUpload (Some file) s in
  documentContent (form s') = [] /\ error s' = Some (upload_error e).
Proof.
  intros Ht H.
  assert (Hread : read_file file = Throw e).
  { unfold read_file; rewrite Ht; simpl.
    destruct H as [H|(pdf & k & Hd & Hk & Hok & Hbad)]; [rewrite H; reflexivity|].
    rewrite Hd, (@pages_loop_first_failure pdf e k); auto. }
  cbv zeta; rewrite handleFileUpload_eq.
  unfold handleFileUpload_resume, try_catch_finally, handleFileUpload_try,
    bind, lift, modify.
  rewrite Hread; split; reflexivity.
Qed.

Lemma pdf_failure_keeps_no_text_witness :
  let s' := handleFileUpload (Some Sample.torn_pdf) Sample.analyzed_state in
  documentContent (form s') = [] /\
  error s' =
    Some (lit "Failed to process the uploaded file: Invalid page request.").
Proof.
  apply (@pdf_failure_keeps_no_text Sample.torn_pdf Sample.analyzed_state
           {| message := lit "Invalid page request." |} eq_refl).
  right; exists Sample.torn, 1%nat.
  split; [reflexivity|split; [simpl; lia|split; [|reflexivity]]].
  intros [|j] Hj; [eexists; reflexivity | lia].
Defined.

(* ===================================================================== *)
(** ** The analysis request *)
(* ===================================================================== *)

(** The prompt holds the document and the four context fields as they are
    in the form, in this order. *)
Lemma userPrompt_embeds f :
  exists p0 p1 p2 p3 p4 p5,
    userPrompt f =
      p0 ++ documentContent f ++ p1 ++ userRole f ++ p2 ++ audienceType f ++
      p3 ++ explanationLevel f ++ p4 ++ explanationTone f ++ p5.
Proof.
  unfold userPrompt.
  exists (lit "Document content:" ++ LF ++ DQUOTE ++ DQUOTE ++ DQUOTE ++ LF),
         (LF ++ DQUOTE ++ DQUOTE ++ DQUOTE ++ LF ++ LF ++
          lit "Additional context:" ++ LF ++ lit " - User role: "),
         (LF ++ lit " - Desired summary audience/type: "),
         (LF ++ lit " - Explanation complexity level: "),
         (LF ++ lit " - Explanation tone: "),
         (LF ++ lit " - Required output format: JSON" ++ LF).
  repeat rewrite <- app_assoc; reflexivity.
Qed.

(** X4: with the client built and a document that is not blank, submitting
    the form sends exactly one request, to the fixed model with the JSON
    mime type, whose contents is the prompt built from the form; the prompt
    embeds the untrimmed document and the four context fields verbatim, in
    that order; and until the request settles the page shows the spinner,
    with the submit button disabled. *)
Theorem submit_sends_one_request (c : GoogleGenAI) (p : Page) :
  ai p = Some c ->
  ~ whitespace_only (documentContent (form (state p))) ->
  exists p' request,
    fire SubmitForm p = Some p' /\
    analyzeDocument_begin (ai p) (state p) = (state p', Some request) /\
    pending p' = pending p ++ [AnalysisTask (contents request)] /\
    gen_model request = GEMINI /\
    responseMimeType request = lit "application/json" /\
    contents request = userPrompt (form (state p)) /\
    (exists p0 p1 p2 p3 p4 p5,
       contents request =
         p0 ++ documentContent (form (state p)) ++
         p1 ++ userRole (form (state p)) ++
         p2 ++ audienceType (form (state p)) ++
         p3 ++ explanationLevel (form (state p)) ++
         p4 ++ explanationTone (form (state p)) ++ p5) /\
    form (state p') = form (state p) /\
    renderAnalysis (state p') = Spinner /\
    enabled SubmitForm p' = false.
Proof.
  intros Hai Hdoc.
  assert (Hg : negb (truthy (trim (documentContent (form (state p))))) = false).
  { destruct (negb _) eqn:E; [|reflexivity].
    exfalso; apply Hdoc, blank_guard, E. }
  simpl; unfold analyzeDocument_begin; rewrite Hai, Hg; simpl.
  eexists _, _; split; [reflexivity|]; simpl.
  repeat split.
  apply userPrompt_embeds.
Qed.

Lemma submit_sends_one_request_witness :
  let p := with_state
             (set_form (set_documentContent (lit " Tenant pays rent. ")
                                            (form initial_state)) initial_state)
             (boot (Normal Client)) in
  exists p' request,
    fire SubmitForm p = Some p' /\
    pending p' = [AnalysisTask (contents request)] /\
    contents request = userPrompt (form (state p)).
Proof.
  intros p.
  destruct (@submit_sends_one_request Client p eq_refl)
    as (p' & request & Hf & _ & Hp & _ & _ & Hc & _).
  - intros H; apply trim_whitespace_only in H; vm_compute in H; discriminate H.
  - exists p', request; split; [exact Hf | split; [exact Hp | exact Hc]].
Defined.

(* ===================================================================== *)
(** ** More on follow-up questions *)
(* ===================================================================== *)

Lemma trimStart_split s :
  exists pre, s = pre ++ trimStart s /\ whitespace_only pre.
Proof.
  induction s as [|c s (pre & Hs & Hpre)]; simpl.
  - exists []; split; [reflexivity|constructor].
  - destruct (is_white_space c) eqn:Hc.
    + exists (c :: pre); split; [simpl; congruence|constructor; assumption].
    + exists []; split; [reflexivity|constructor].
Qed.

Lemma whitespace_only_rev' s : whitespace_only s -> whitespace_only (rev s).
Proof.
  intros H; apply whitespace_only_rev; rewrite rev_involutive; exact H.
Qed.

(** [trim] drops a run of white space at each end and nothing else. *)
Lemma trim_split s :
  exists a b, s = a ++ trim s ++ b /\ whitespace_only a /\ whitespace_only b.
Proof.
  destruct (trimStart_split s) as (a & Hs & Ha).
  destruct (trimStart_split (rev (trimStart s))) as (b & Hr & Hb).
  exists a, (rev b); split; [|split; [exact Ha|apply whitespace_only_rev', Hb]].
  unfold trim, trimEnd; rewrite <- rev_app_distr, <- Hr, rev_involutive.
  exact Hs.
Qed.

Lemma trim_last s r c : trim s = r ++ [c] -> is_white_space c = false.
Proof.
  unfold trim, trimEnd; intros H.
  apply (f_equal (@rev _)) in H.
  rewrite rev_involutive, rev_app_distr in H; simpl in H.
  exact (trimStart_head _ H).
Qed.

Lemma trim_head s c r : trim s = c :: r -> is_white_space c = false.
Proof.
  intros H.
  destruct (trimStart_split (rev (trimStart s))) as (b & Hr & _).
  apply (f_equal (@rev _)) in Hr.
  rewrite rev_involutive, rev_app_distr in Hr.
  change (rev (trimStart (rev (trimStart s)))) with (trim s) in Hr.
  rewrite H in Hr; simpl in Hr.
  exact (trimStart_head _ Hr).
Qed.

(** X5: the message sent to the session is never empty and is the typed
    question with the white space at its two ends dropped and nothing else:
    the typed text is white space, then the message, then white space, and
    the message neither starts nor ends with a white-space character. *)
Theorem sent_question_shape (s s' : State) (session : Chat) (sent : jsstring) :
  askFollowUpQuestion_begin s = (s', Some (session, sent)) ->
  sent <> [] /\
  (exists a b, currentQuestion s = a ++ sent ++ b /\
               whitespace_only a /\ whitespace_only b) /\
  (forall c r, sent = c :: r -> is_white_space c = false) /\
  (forall r c, sent = r ++ [c] -> is_white_space c = false).
Proof.
  intros H.
  destruct (askFollowUpQuestion_begin_inv _ H) as (Hc & Hq & Hl).
  rewrite (askFollowUpQuestion_begin_sends _ Hc Hq Hl) in H.
  injection H as _ <-.
  split; [exact Hq|split; [apply trim_split|split]].
  - intros c r; apply trim_head.
  - intros r c; apply trim_last.
Qed.

Lemma sent_question_shape_witness :
  exists a b,
    lit "  Who pays the rent? " ++ LF = a ++ lit "Who pays the rent?" ++ b /\
    whitespace_only a /\ whitespace_only b.
Proof.
  exact (proj1 (proj2
           (@sent_question_shape Sample.asking_state
              (fst (askFollowUpQuestion_begin Sample.asking_state))
              (chat_params (userPrompt (form Sample.asking_state))
                           (Sample.lease_json 1))
              (lit "Who pays the rent?") eq_refl))).
Defined.

(** X6: a chat turn that no other handler interleaves with.  With a
    session, a question that is not blank and no turn in flight, the turn
    appends the trimmed question as a user turn and empties the input; a
    reply then appends one model turn with the reply's text and leaves no
    chat error, while a rejection appends nothing more, sets the chat error
    that embeds the cause, and does not put the question back in the input.
    Either way the loading flag ends cleared and the session, the analysis
    and the analysis error stay as they were. *)
Theorem chat_turn_outcome
        (reply : completion GenerateContentResponse) (s : State) (session : Chat) :
  chat s = Some session ->
  trim (currentQuestion s) <> [] ->
  isChatLoading s = false ->
  let s' := askFollowUpQuestion reply s in
  let asked := {| role := user; text := Some (trim (currentQuestion s)) |} in
  isChatLoading s' = false /\ currentQuestion s' = [] /\
  chat s' = Some session /\ analysis s' = analysis s /\ error s' = error s /\
  match reply with
  | Normal response =>
    chatHistory s' =
      chatHistory s ++ [asked; {| role := model; text := response_text response |}] /\
    chatError s' = None
  | Throw e =>
    chatHistory s' = chatHistory s ++ [asked] /\
    chatError s' = Some (lit "Sorry, an error occurred: " ++ message e)
  end.
Proof.
  intros Hc Hq Hl; unfold askFollowUpQuestion.
  rewrite (askFollowUpQuestion_begin_sends _ Hc Hq Hl).
  unfold askFollowUpQuestion_resume, try_catch_finally, askFollowUpQuestion_try,
    bind, lift, modify.
  destruct reply as [response|e]; simpl; rewrite ?Hc.
  - repeat split. rewrite <- app_assoc; reflexivity.
  - repeat split.
Qed.

Lemma chat_turn_outcome_witness :
  let s' := askFollowUpQuestion (Throw {| message := lit "network timeout" |})
                                Sample.asking_state in
  chatHistory s' = [ {| role := user; text := Some (lit "Who pays the rent?") |} ] /\
  chatError s' = Some (lit "Sorry, an error occurred: network timeout") /\
  currentQuestion s' = [].
Proof.
  intros s'.
  destruct (@chat_turn_outcome (Throw {| message := lit "network timeout" |})
              Sample.asking_state
              (chat_params (userPrompt (form Sample.asking_state))
                           (Sample.lease_json 1))
              eq_refl ltac:(vm_compute; discriminate) eq_refl)
    as (_ & Hq & _ & _ & _ & Hh & He).
  split; [exact Hh | split; [exact He | exact Hq]].
Defined.

(** X7: the chat form's controls agree with the handler's guard: whenever
    the chat card is rendered, its send button is disabled exactly when
    [askFollowUpQuestion] would return without sending, and its textarea is
    disabled exactly while a turn is in flight. *)
Theorem send_button_matches_guard (s : State) (panel : ChatPanel) :
  renderChat s = Some panel ->
  (send_disabled panel = true <-> askFollowUpQuestion_begin s = (s, None)) /\
  input_disabled panel = isChatLoading s.
Proof.
  unfold renderChat, askFollowUpQuestion_begin.
  destruct (chat s) as [session|]; [|discriminate].
  intros H; injection H as <-; simpl.
  split; [|reflexivity].
  destruct (negb (truthy (trim (currentQuestion s))) || isChatLoading s);
    split; intros H; try reflexivity; discriminate H.
Qed.

Lemma send_button_matches_guard_witness :
  exists panel,
    renderChat Sample.analyzed_state = Some panel /\
    send_disabled panel = true /\
    askFollowUpQuestion_begin Sample.analyzed_state = (Sample.analyzed_state, None).
Proof.
  eexists; split; [reflexivity|].
  split; [reflexivity|].
  apply (proj1 (@send_button_matches_guard Sample.analyzed_state _ eq_refl)).
  reflexivity.
Defined.

(* ===================================================================== *)
(** ** What one turn of the event loop can do *)
(* ===================================================================== *)

Lemma analyzeDocument_begin_cases ai s :
  analyzeDocument_begin ai s = (s, None) \/
  analyzeDocument_begin ai s = (set_error (Some EMPTY_DOCUMENT) s, None) \/
  (ai <> None /\ ~ whitespace_only (documentContent (form s)) /\
   analyzeDocument_begin ai s =
     (set_chatHistory [] (set_chat None (set_error None
        (set_analysis None (set_isLoading true s)))),
      Some {| gen_model := GEMINI;
              contents := userPrompt (form s);
              systemInstruction := analysis_systemInstruction;
              responseMimeType := lit "application/json" |})).
Proof.
  unfold analyzeDocument_begin.
  destruct ai as [c|]; [|left; reflexivity].
  destruct (negb (truthy (trim (documentContent (form s))))) eqn:E.
  - right; left; reflexivity.
  - right; right; split; [discriminate|split; [|reflexivity]].
    intros H; apply blank_guard in H; congruence.
Qed.

Lemma askFollowUpQuestion_begin_cases s :
  askFollowUpQuestion_begin s = (s, None) \/
  exists session,
    chat s = Some session /\ trim (currentQuestion s) <> [] /\
    isChatLoading s = false /\
    askFollowUpQuestion_begin s =
      (set_currentQuestion []
         (push {| role := user; text := Some (trim (currentQuestion s)) |}
            (set_chatError None (set_isChatLoading true s))),
       Some (session, trim (currentQuestion s))).
Proof.
  destruct (askFollowUpQuestion_begin s) as [s' [[session sent]|]] eqn:H.
  - right; exists session.
    destruct (askFollowUpQuestion_begin_inv _ H) as (Hc & Hq & Hl).
    rewrite <- H; repeat split; try assumption.
    apply askFollowUpQuestion_begin_sends; assumption.
  - left; unfold askFollowUpQuestion_begin in H.
    destruct (chat s); [|injection H as <-; reflexivity].
    destruct (negb _ || _); [injection H as <-; reflexivity|discriminate].
Qed.

Lemma handleFileUpload_begin_cases files s :
  handleFileUpload_begin files s = (s, None) \/
  exists file,
    let cleared := set_analysis None
                     (set_form (set_documentContent [] (form s))
                        (set_error None (set_isLoading true s))) in
    files = Some file /\
    (handleFileUpload_begin files s = (cleared, Some file) \/
     handleFileUpload_begin files s = (handleFileUpload_resume file cleared, None)).
Proof.
  unfold handleFileUpload_begin.
  destruct files as [file|]; [|left; reflexivity].
  right; exists file; cbv zeta; split; [reflexivity|].
  destruct (suspends file); [left|right]; reflexivity.
Qed.

Lemma take_in k :
  forall l t rest,
    take k l = Some (t, rest) ->
    In t l /\ (forall x, In x rest -> In x l).
Proof.
  induction k as [|k IH]; intros [|t0 l] t rest H; simpl in H; try discriminate.
  - injection H as <- <-; split; [left; reflexivity|intros x Hx; right; exact Hx].
  - destruct (take k l) as [[t' rest']|] eqn:E; [|discriminate].
    injection H as <- <-.
    destruct (IH _ _ _ E) as [Hin Hrest].
    split; [right; exact Hin|].
    intros x [Hx|Hx]; [left; exact Hx|right; apply Hrest, Hx].
Qed.

Lemma askFollowUpQuestion_resume_history reply s :
  exists l,
    chatHistory (askFollowUpQuestion_resume reply s) = chatHistory s ++ l /\
    (List.length l <= 1)%nat.
Proof.
  unfold askFollowUpQuestion_resume, try_catch_finally, askFollowUpQuestion_try,
    bind, lift, modify.
  destruct reply as [response|e]; simpl.
  - eexists; split; [reflexivity|simpl; lia].
  - exists []; split; [rewrite app_nil_r; reflexivity|simpl; lia].
Qed.

(** X8: within one turn of the event loop the transcript either keeps all
    its turns and gains at most one at its end, or, on a form submission
    only, is emptied.  No turn is ever edited, reordered or removed
    singly, whatever the order in which the handlers run. *)
Theorem transcript_grows_or_is_emptied (p p' : Page) (e : Event) :
  fire e p = Some p' ->
  (exists l, chatHistory (state p') = chatHistory (state p) ++ l /\
             (List.length l <= 1)%nat) \/
  (e = SubmitForm /\ chatHistory (state p') = []).
Proof.
  assert (Hsame : forall h : list ChatMessage,
             exists l, h = h ++ l /\ (List.length l <= 1)%nat).
  { intros h; exists []; split; [rewrite app_nil_r; reflexivity|simpl; lia]. }
  intros Hf; destruct e; simpl in Hf.
  1-6: injection Hf as <-; left; apply Hsame.
  - destruct (analyzeDocument_begin_cases (ai p) (state p))
      as [H|[H|(_ & _ & H)]]; rewrite H in Hf; injection Hf as <-.
    + left; apply Hsame.
    + left; apply Hsame.
    + right; split; reflexivity.
  - pose proof (handleFileUpload_begin_frame files (state p))
      as (_ & _ & Hh & _).
    destruct (handleFileUpload_begin files (state p)) as [s file].
    injection Hf as <-; left.
    replace (state (suspend s (option_map UploadTask file) p)) with s
      by (destruct file; reflexivity).
    simpl in Hh; rewrite Hh; apply Hsame.
  - injection Hf as <-; left; apply Hsame.
  - destruct (askFollowUpQuestion_begin_cases (state p))
      as [H|(session & _ & _ & _ & H)]; rewrite H in Hf; injection Hf as <-.
    + left; apply Hsame.
    + left; eexists; split; [reflexivity|simpl; lia].
  - destruct (take k (pending p)) as [[[prompt| |] rest]|]; try discriminate.
    injection Hf as <-; left; simpl.
    destruct (analyzeDocument_resume_frame run prompt (state p))
      as (_ & _ & Hh & _).
    rewrite Hh; apply Hsame.
  - destruct (take k (pending p)) as [[[|session question|] rest]|];
      try discriminate.
    injection Hf as <-; left; simpl.
    apply askFollowUpQuestion_resume_history.
  - destruct (take k (pending p)) as [[[| |file] rest]|]; try discriminate.
    injection Hf as <-; left; simpl.
    destruct (handleFileUpload_resume_frame file (state p))
      as (_ & _ & _ & Hh & _).
    rewrite Hh; apply Hsame.
Qed.

Lemma transcript_grows_or_is_emptied_witness :
  let p := Sample.page_after Sample.asked in
  let reply := Normal {| response_text := Some (lit "The tenant.") |} in
  exists p' l,
    fire (ChatSettles 0 reply) p = Some p' /\
    chatHistory (state p') = chatHistory (state p) ++ l /\
    (List.length l <= 1)%nat.
Proof.
  intros p reply.
  destruct (@transcript_grows_or_is_emptied p _ (ChatSettles 0 reply) eq_refl)
    as [(l & Hl & Hn)|(He & _)]; [|discriminate He].
  eexists _, l; split; [reflexivity|split; [exact Hl|exact Hn]].
Defined.

Lemma take_in_inv k :
  forall l t rest,
    take k l = Some (t, rest) ->
    forall x, In x l -> x = t \/ In x rest.
Proof.
  induction k as [|k IH]; intros [|t0 l] t rest H; simpl in H; try discriminate.
  - injection H as <- <-; intros x [Hx|Hx]; [left; congruence|right; exact Hx].
  - destruct (take k l) as [[t' rest']|] eqn:E; [|discriminate].
    injection H as <- <-.
    intros x [Hx|Hx]; [right; left; exact Hx|].
    destruct (IH _ _ _ E x Hx) as [Ht|Hr]; [left; exact Ht|right; right; exact Hr].
Qed.

Lemma analyzeDocument_resume_loading run prompt s :
  isLoading (analyzeDocument_resume run prompt s) = false.
Proof.
  rewrite analyzeDocument_resume_eq.
  destruct (analyzeDocument_try run prompt s) as [[u|e] s']; reflexivity.
Qed.

Lemma handleFileUpload_resume_loading file s :
  isLoading (handleFileUpload_resume file s) = false.
Proof.
  unfold handleFileUpload_resume, try_catch_finally, handleFileUpload_try,
    bind, lift, modify.
  destruct (read_file file); reflexivity.
Qed.

Lemma askFollowUpQuestion_resume_frame reply s :
  let s' := askFollowUpQuestion_resume reply s in
  isLoading s' = isLoading s /\ analysis s' = analysis s /\
  error s' = error s /\ chat s' = chat s /\ form s' = form s.
Proof.
  unfold askFollowUpQuestion_resume, try_catch_finally, askFollowUpQuestion_try,
    bind, lift, modify.
  destruct reply; repeat split.
Qed.

Lemma analyzeDocument_resume_chat run prompt s :
  chat (analyzeDocument_resume run prompt s) = chat s \/
  exists raw,
    chat (analyzeDocument_resume run prompt s) =
      Some (chat_params prompt (trim raw)).
Proof.
  rewrite analyzeDocument_resume_eq.
  destruct (analyzeDocument_try_outcome run prompt s);
    try (left; reflexivity).
  right; exists raw; reflexivity.
Qed.

(* ===================================================================== *)
(** ** Invariants of the page *)
(* ===================================================================== *)

Lemma idle_without_client_fire e p p' :
  ai p = None -> idle_without_client p -> fire e p = Some p' ->
  ai p' = None /\ idle_without_client p'.
Proof.
  unfold idle_without_client.
  intros Hai (Ha & Hc & Hh & Hl & Hp) Hf; destruct e; simpl in Hf.
  1-6: injection Hf as <-; simpl; auto 10.
  - rewrite Hai in Hf; simpl in Hf; injection Hf as <-; simpl; auto 10.
  - pose proof (handleFileUpload_begin_frame files (state p))
      as (_ & Hc' & Hh' & Hl' & _).
    assert (Ha' : analysis (fst (handleFileUpload_begin files (state p))) = None).
    { destruct files as [file|]; [|exact Ha].
      change (handleFileUpload_begin (Some file) (state p))
        with (let cleared := set_analysis None
                               (set_form (set_documentContent [] (form (state p)))
                                  (set_error None (set_isLoading true (state p)))) in
              if suspends file then (cleared, Some file)
              else (handleFileUpload_resume file cleared, None)).
      cbv zeta; destruct (suspends file); [reflexivity|].
      apply (handleFileUpload_resume_frame file). }
    destruct (handleFileUpload_begin files (state p)) as [s file].
    simpl in *; injection Hf as <-.
    destruct file as [file|]; simpl; (split; [exact Hai|]);
      repeat (split; [congruence|]).
    + intros t Ht; apply in_app_or in Ht; destruct Ht as [Ht|[<-|[]]];
        [apply Hp, Ht|eexists; reflexivity].
    + exact Hp.
  - injection Hf as <-; simpl; auto 10.
  - unfold askFollowUpQuestion_begin in Hf; rewrite Hc in Hf.
    injection Hf as <-; simpl; auto 10.
  - destruct (take k (pending p)) as [[[prompt| |] rest]|] eqn:Ht;
      try discriminate.
    destruct (take_in _ _ Ht) as [Hin _].
    destruct (Hp _ Hin) as [file Hfile]; discriminate Hfile.
  - destruct (take k (pending p)) as [[[|session question|] rest]|] eqn:Ht;
      try discriminate.
    destruct (take_in _ _ Ht) as [Hin _].
    destruct (Hp _ Hin) as [file Hfile]; discriminate Hfile.
  - destruct (take k (pending p)) as [[[| |file] rest]|] eqn:Ht;
      try discriminate.
    destruct (take_in _ _ Ht) as [_ Hrest].
    injection Hf as <-; simpl.
    destruct (handleFileUpload_resume_frame file (state p))
      as (Ha' & _ & Hc' & Hh' & Hl' & _).
    split; [exact Hai|]; repeat (split; [congruence|]).
    intros t Hin; apply Hp, Hrest, Hin.
Qed.

(** X9: when the client could not be built at start-up, nothing is ever
    sent: on every page the handlers can produce there is no analysis, no
    chat session, an empty transcript, no chat turn in flight, and the only
    pending handlers are file reads; so the page never shows an analysis or
    a chat card. *)
Theorem without_client_nothing_is_sent (p : Page) :
  reachable p -> ai p = None ->
  idle_without_client p /\
  shown_chat (state p) = None /\ shown_clauses (state p) = [].
Proof.
  intros Hr Hai.
  assert (H : ai p = None -> idle_without_client p).
  { clear Hai; induction Hr as [ctor | p e p' Hr IH Hf].
    - destruct ctor; [discriminate|].
      intros _; repeat split; intros t [].
    - intros Hai.
      assert (Hp : ai p = None).
      { destruct e; simpl in Hf;
          repeat match type of Hf with
                 | context [let (_, _) := ?x in _] => destruct x
                 | context [match ?x with _ => _ end] => destruct x
                 end;
          try discriminate; injection Hf as <-;
          try exact Hai; unfold suspend in Hai;
          repeat match type of Hai with
                 | context [match ?x with _ => _ end] => destruct x
                 end; exact Hai. }
      exact (proj2 (idle_without_client_fire e Hp (IH Hp) Hf)). }
  specialize (H Hai); split; [exact H|].
  destruct H as (Ha & _).
  unfold shown_chat, shown_clauses, renderAnalysis; rewrite Ha.
  destruct (isLoading (state p)); [split; reflexivity|].
  destruct (error (state p)) as [[|c m]|]; split; reflexivity.
Qed.

Lemma run_events_reachable es :
  forall p p', reachable p -> run_events es p = Some p' -> reachable p'.
Proof.
  induction es as [|e es IH]; simpl; intros p p' Hp H.
  - injection H as <-; exact Hp.
  - destruct (fire e p) as [q|] eqn:Hf; [|discriminate].
    apply (IH q); [|exact H].
    eapply reachable_fire; eassumption.
Qed.

Lemma without_client_nothing_is_sent_witness :
  idle_without_client Sample.clientless_page /\
  pending Sample.clientless_page = [].
Proof.
  assert (Hr : reachable Sample.clientless_page).
  { unfold Sample.clientless_page.
    destruct (run_events Sample.clientless (boot (Throw Sample.no_key)))
      as [p|] eqn:E.
    - exact (run_events_reachable _ (reachable_boot _) E).
    - apply reachable_boot. }
  split; [|reflexivity].
  exact (proj1 (without_client_nothing_is_sent Hr eq_refl)).
Defined.

(** X10: the spinner is never left on its own: on every page the handlers
    can produce, when [isLoading] is set an analysis call or a file read is
    pending, whose resumption clears the flag.  (The converse fails: a call
    that settles clears the flag while another is still pending.) *)
Theorem spinner_has_a_pending_call (p : Page) :
  reachable p ->
  isLoading (state p) = true ->
  exists t, In t (pending p) /\ is_loader t = true.
Proof.
  induction 1 as [ctor | p e p' Hr IH Hf].
  - destruct ctor; discriminate.
  - destruct e; simpl in Hf.
    1-6: injection Hf as <-; exact IH.
    + destruct (analyzeDocument_begin_cases (ai p) (state p))
        as [H|[H|(_ & _ & H)]]; rewrite H in Hf; injection Hf as <-; simpl.
      * exact IH.
      * exact IH.
      * intros _; eexists; split; [apply in_or_app; right; left; reflexivity|].
        reflexivity.
    + destruct (handleFileUpload_begin_cases files (state p))
        as [H|(file & _ & [H|H])]; rewrite H in Hf; injection Hf as <-; simpl.
      * exact IH.
      * intros _; exists (UploadTask file).
        split; [apply in_or_app; right; left; reflexivity|reflexivity].
      * rewrite handleFileUpload_resume_loading; discriminate.
    + injection Hf as <-; exact IH.
    + destruct (askFollowUpQuestion_begin_cases (state p))
        as [H|(session & _ & _ & _ & H)]; rewrite H in Hf;
        injection Hf as <-; simpl; [exact IH|].
      intros Hl; destruct (IH Hl) as (t & Hin & Ht).
      exists t; split; [apply in_or_app; left; exact Hin|exact Ht].
    + destruct (take k (pending p)) as [[[prompt| |] rest]|]; try discriminate.
      injection Hf as <-; simpl.
      rewrite analyzeDocument_resume_loading; discriminate.
    + destruct (take k (pending p)) as [[[|session question|] rest]|] eqn:Ht;
        try discriminate.
      injection Hf as <-; simpl.
      destruct (askFollowUpQuestion_resume_frame reply (state p)) as (Hl & _).
      rewrite Hl; intros Hl'; destruct (IH Hl') as (t & Hin & Hlt).
      exists t; split; [|exact Hlt].
      destruct (take_in_inv _ _ Ht _ Hin) as [->|Hrest];
        [discriminate Hlt|exact Hrest].
    + destruct (take k (pending p)) as [[[| |file] rest]|]; try discriminate.
      injection Hf as <-; simpl.
      rewrite handleFileUpload_resume_loading; discriminate.
Qed.

Lemma spinner_has_a_pending_call_witness :
  let p := suspend (fst (handleFileUpload_begin (Some Sample.notes_txt)
                                                Sample.analyzed_state))
                   (Some (UploadTask Sample.notes_txt))
                   (Sample.page_after Sample.analyzed) in
  exists t, In t (pending p) /\ is_loader t = true.
Proof.
  intros p.
  apply (@spinner_has_a_pending_call p); [|reflexivity].
  apply (@reachable_fire (Sample.page_after Sample.analyzed)
                         (ChangeFile (Some Sample.notes_txt))).
  - apply user_reachable_reachable, page_after_reachable.
    vm_compute; discriminate.
  - reflexivity.
Defined.

Lemma well_sourced_fire e p p' :
  well_sourced p -> fire e p = Some p' -> well_sourced p'.
Proof.
  unfold well_sourced; intros (Ha & Hc & Hq) Hf; destruct e; simpl in Hf.
  1-6: injection Hf as <-; simpl; auto.
  - destruct (analyzeDocument_begin_cases (ai p) (state p))
      as [H|[H|(_ & Hdoc & H)]]; rewrite H in Hf; injection Hf as <-; simpl;
      auto.
    split; [|split].
    + intros prompt Hin; apply in_app_or in Hin.
      destruct Hin as [Hin|[Hin|[]]]; [apply Ha, Hin|].
      injection Hin as <-; exists (form (state p)); auto.
    + discriminate.
    + intros session question Hin; apply in_app_or in Hin.
      destruct Hin as [Hin|[Hin|[]]]; [apply Hq, Hin|discriminate Hin].
  - pose proof (handleFileUpload_begin_frame files (state p)) as (_ & Hc' & _).
    destruct (handleFileUpload_begin files (state p)) as [s file].
    simpl in Hc'; injection Hf as <-.
    destruct file as [file|]; simpl; (split; [|split]); try (rewrite Hc'; auto);
      auto.
    + intros prompt Hin; apply in_app_or in Hin.
      destruct Hin as [Hin|[Hin|[]]]; [apply Ha, Hin|discriminate Hin].
    + intros session question Hin; apply in_app_or in Hin.
      destruct Hin as [Hin|[Hin|[]]]; [apply Hq, Hin|discriminate Hin].
  - injection Hf as <-; simpl; auto.
  - destruct (askFollowUpQuestion_begin_cases (state p))
      as [H|(session & Hs & Hne & _ & H)]; rewrite H in Hf;
      injection Hf as <-; simpl; auto.
    split; [|split].
    + intros prompt Hin; apply in_app_or in Hin.
      destruct Hin as [Hin|[Hin|[]]]; [apply Ha, Hin|discriminate Hin].
    + exact Hc.
    + intros session' question Hin; apply in_app_or in Hin.
      destruct Hin as [Hin|[Hin|[]]]; [apply Hq, Hin|].
      injection Hin as <- <-; split; [apply Hc, Hs|exact Hne].
  - destruct (take k (pending p)) as [[[prompt| |] rest]|] eqn:Ht;
      try discriminate.
    destruct (take_in _ _ Ht) as [Hin Hrest].
    injection Hf as <-; simpl; split; [|split].
    + intros prompt' Hin'; apply Ha, Hrest, Hin'.
    + intros session Hs.
      destruct (analyzeDocument_resume_chat run prompt (state p)) as [E|[raw E]];
        rewrite E in Hs; [apply Hc, Hs|].
      injection Hs as <-; exists prompt, raw; split; [reflexivity|apply Ha, Hin].
    + intros session question Hin'; apply Hq, Hrest, Hin'.
  - destruct (take k (pending p)) as [[[|session question|] rest]|] eqn:Ht;
      try discriminate.
    destruct (take_in _ _ Ht) as [_ Hrest].
    injection Hf as <-; simpl; split; [|split].
    + intros prompt' Hin'; apply Ha, Hrest, Hin'.
    + destruct (askFollowUpQuestion_resume_frame reply (state p))
        as (_ & _ & _ & E & _).
      rewrite E; exact Hc.
    + intros session' question' Hin'; apply Hq, Hrest, Hin'.
  - destruct (take k (pending p)) as [[[| |file] rest]|] eqn:Ht;
      try discriminate.
    destruct (take_in _ _ Ht) as [_ Hrest].
    injection Hf as <-; simpl; split; [|split].
    + intros prompt' Hin'; apply Ha, Hrest, Hin'.
    + destruct (handleFileUpload_resume_frame file (state p))
        as (_ & _ & E & _).
      rewrite E; exact Hc.
    + intros session' question' Hin'; apply Hq, Hrest, Hin'.
Qed.

(** X11: nothing blank is ever sent, whatever the order in which the
    handlers run.  On every page they can produce, each analysis request in
    flight carries the prompt of a form whose document was not blank, each
    question in flight is not empty, and the chat session in [state], like
    the session of each question in flight, was seeded from such a prompt
    and a trimmed response: its history is that prompt as the user turn and
    the preamble with the response as the model turn. *)
Theorem requests_come_from_filled_forms (p : Page) :
  reachable p ->
  well_sourced p /\
  forall session,
    chat (state p) = Some session ->
    exists f raw,
      ~ whitespace_only (documentContent f) /\
      history session =
        [ {| content_role := user; parts := [userPrompt f] |};
          {| content_role := model;
             parts := [MODEL_TURN_PREAMBLE ++ trim raw] |} ].
Proof.
  intros Hr.
  assert (H : well_sourced p).
  { induction Hr as [ctor | p e p' Hr IH Hf].
    - destruct ctor; (split; [intros ? []|split; [discriminate|intros ? ? []]]).
    - exact (well_sourced_fire e IH Hf). }
  split; [exact H|].
  intros session Hs.
  destruct H as (_ & Hc & _).
  destruct (Hc _ Hs) as (prompt & raw & -> & (f & -> & Hf)).
  exists f, raw; split; [exact Hf|reflexivity].
Qed.

Lemma requests_come_from_filled_forms_witness :
  well_sourced (Sample.page_after Sample.asked) /\
  pending (Sample.page_after Sample.asked) =
    [ ChatTask (chat_params (userPrompt (form Sample.analyzed_state))
                            (Sample.lease_json 1))
               (lit "Who pays the rent?") ].
Proof.
  split; [|reflexivity].
  apply requests_come_from_filled_forms.
  apply user_reachable_reachable, page_after_reachable.
  vm_compute; discriminate.
Defined.

(* ===================================================================== *)
(** ** What the page shows *)
(* ===================================================================== *)




(** X13: the chat card, and with it the way to ask a question, is on the
    page exactly when the page is not loading, shows no error message, and
    [state] holds both an analysis and a chat session; it then shows the
    whole transcript.  A session kept in [state] without an analysis is
    therefore never shown. *)
Theorem chat_card_needs_analysis (s : State) :
  (shown_chat s <> None <->
   isLoading s = false /\ truthy_opt (error s) = false /\
   analysis s <> None /\ chat s <> None) /\
  (forall panel, shown_chat s = Some panel ->
                 renderChat s = Some panel /\ messages panel = chatHistory s).
Proof.
  unfold shown_chat, renderAnalysis, renderChat.
  destruct (isLoading s).
  { split; [split; [congruence|intros (H & _); discriminate H]|discriminate]. }
  destruct (error s) as [[|c m]|]; simpl;
    try (split; [split; [congruence|intros (_ & H & _); discriminate H]
                |discriminate]);
    (destruct (analysis s) as [a|];
     [|split; [split; [congruence|intros (_ & _ & H & _); congruence]
              |discriminate]]);
    (destruct (chat s) as [session|];
     [|split; [split; [congruence|intros (_ & _ & _ & H); congruence]
              |discriminate]]);
    (split; [split; [intros _; repeat split; discriminate|discriminate]|]);
    intros panel H; injection H as <-; split; reflexivity.
Qed.

(** X14: an error message hides the analysis without discarding it.
    Submitting a blank document on a page that is not loading replaces the
    panel by the validation message, and the chat card with it, while the
    analysis, the session and the transcript stay in [state]. *)
Theorem blank_submit_hides_analysis (c : GoogleGenAI) (s : State) :
  whitespace_only (documentContent (form s)) ->
  isLoading s = false ->
  let s' := fst (analyzeDocument_begin (Some c) s) in
  renderAnalysis s' = ErrorMessage EMPTY_DOCUMENT /\
  shown_chat s' = None /\ shown_clauses s' = [] /\
  analysis s' = analysis s /\ chat s' = chat s /\
  chatHistory s' = chatHistory s /\ activeClause s' = activeClause s.
Proof.
  intros Hd Hl; cbv zeta.
  unfold analyzeDocument_begin; rewrite (proj2 (blank_guard _) Hd); simpl.
  unfold shown_chat, shown_clauses, renderAnalysis; simpl; rewrite Hl.
  repeat split.
Qed.

Lemma blank_submit_hides_analysis_witness :
  let s := set_form (set_documentContent (lit "  ") (form Sample.analyzed_state))
                    Sample.analyzed_state in
  let s' := fst (analyzeDocument_begin (Some Client) s) in
  renderAnalysis s' = ErrorMessage EMPTY_DOCUMENT /\
  analysis s' = Some (Sample.lease 1).
Proof.
  intros s s'.
  destruct (@blank_submit_hides_analysis Client s) as (Hv & _ & _ & Ha & _).
  - repeat constructor.
  - reflexivity.
  - split; [exact Hv|exact Ha].
Defined.

Lemma expanded_count (active : option Z) (cs : list Clause) :
  List.length
    (filter aria_expanded
       (map (fun clause =>
               {| item_clause := clause;
                  aria_expanded := option_Z_eqb active (clause_number clause) |})
            cs)) =
  match active with
  | Some n => count_occ Z.eq_dec (map clause_number cs) n
  | None => 0%nat
  end.
Proof.
  destruct active as [n|]; induction cs as [|clause cs IH]; simpl in *;
    try reflexivity; [|exact IH].
  destruct (Z.eq_dec (clause_number clause) n) as [E|E].
  - rewrite E, Z.eqb_refl; simpl; rewrite IH; reflexivity.
  - destruct (Z.eqb_spec n (clause_number clause)); [congruence|exact IH].
Qed.

(** X15: the accordion opens as many items as there are clauses numbered
    like the active clause; so when the clause numbers of the analysis are
    distinct at most one item is open, and exactly one when the active
    clause is one of them, while clauses that share the active number open
    together. *)
Theorem accordion_opens_active_number (s : State) (a : AnalysisResult) :
  let opened := List.length (filter aria_expanded (renderAccordion s a)) in
  opened = match activeClause s with
           | Some n => count_occ Z.eq_dec (map clause_number (clauses a)) n
           | None => 0%nat
           end /\
  (NoDup (map clause_number (clauses a)) ->
   (opened <= 1)%nat /\
   forall n, activeClause s = Some n ->
             In n (map clause_number (clauses a)) -> opened = 1%nat).
Proof.
  cbv zeta; unfold renderAccordion; rewrite expanded_count.
  split; [reflexivity|].
  intros Hnd; split.
  - destruct (activeClause s) as [n|]; [|lia].
    apply NoDup_count_occ; exact Hnd.
  - intros n -> Hin.
    apply (NoDup_count_occ' Z.eq_dec); assumption.
Qed.

Lemma accordion_opens_active_number_witness :
  List.length
    (filter aria_expanded
       (renderAccordion (toggleClause 1 Sample.analyzed_state) (Sample.lease 1)))
  = 1%nat.
Proof.
  refine (proj2 (proj2 (@accordion_opens_active_number
                          (toggleClause 1 Sample.analyzed_state) (Sample.lease 1))
                       _) 1%Z eq_refl _).
  - repeat constructor; intros [].
  - left; reflexivity.
Defined.

(** X16: the risk badge falls back only for a level that is missing or
    empty: it then reads N/A in the unknown style.  Any other level is shown
    verbatim, styled by its lower-cased text, whether or not a style exists
    for it. *)
Theorem risk_badge_fallback
        (toLowerCase : jsstring -> jsstring) (level : option jsstring) :
  (forall t, toLowerCase t = [] <-> t = []) ->
  (truthy_opt level = false ->
   renderRiskBadge toLowerCase level =
     {| badge_class := lit "risk-badge risk-unknown"; badge_text := lit "N/A" |}) /\
  (forall t, level = Some t -> t <> [] ->
   renderRiskBadge toLowerCase level =
     {| badge_class := lit "risk-badge risk-" ++ toLowerCase t;
        badge_text := t |}).
Proof.
  intros Hlow; split.
  - destruct level as [[|c l]|]; simpl; intros H; try discriminate H;
      unfold renderRiskBadge; simpl; [|reflexivity].
    rewrite (proj2 (Hlow []) eq_refl); reflexivity.
  - intros t -> Ht; destruct t as [|c l]; [congruence|].
    unfold renderRiskBadge; simpl.
    destruct (toLowerCase (c :: l)) as [|d m] eqn:E; [|reflexivity].
    apply (proj1 (Hlow _)) in E; discriminate E.
Qed.

Lemma ascii_toLowerCase_nil t : Sample.ascii_toLowerCase t = [] <-> t = [].
Proof.
  unfold Sample.ascii_toLowerCase; split; [|intros ->; reflexivity].
  destruct t; [reflexivity|discriminate].
Qed.

Lemma risk_badge_fallback_witness :
  renderRiskBadge Sample.ascii_toLowerCase (Some (lit "High")) =
    {| badge_class := lit "risk-badge risk-high"; badge_text := lit "High" |} /\
  renderRiskBadge Sample.ascii_toLowerCase (Some []) =
    {| badge_class := lit "risk-badge risk-unknown"; badge_text := lit "N/A" |}.
Proof.
  split.
  - apply (proj2 (@risk_badge_fallback Sample.ascii_toLowerCase
                    (Some (lit "High")) ascii_toLowerCase_nil) (lit "High") eq_refl).
    discriminate.
  - apply (proj1 (@risk_badge_fallback Sample.ascii_toLowerCase
                    (Some []) ascii_toLowerCase_nil)).
    reflexivity.
Defined.

(* ===================================================================== *)
(** ** Handlers one after the other *)
(* ===================================================================== *)

(** X17: an upload followed by a submission, with the client built.  After
    an upload that failed, or that read a blank text, the submission sends
    nothing and puts the validation message in place of whatever the upload
    left.  After an upload that read a text that is not blank, the
    submission sends one request whose prompt is built from that text and
    from the context fields as they were before the upload. *)
Theorem upload_then_submit (c : GoogleGenAI) (file : File) (s : State) :
  let s1 := handleFileUpload (Some file) s in
  let blank := match read_file file with
               | Normal textContent => whitespace_only textContent
               | Throw _ => True
               end in
  (blank ->
   analyzeDocument_begin (Some c) s1 = (set_error (Some EMPTY_DOCUMENT) s1, None)) /\
  (forall textContent,
     read_file file = Normal textContent -> ~ whitespace_only textContent ->
     exists s2 request,
       analyzeDocument_begin (Some c) s1 = (s2, Some request) /\
       contents request = userPrompt (set_documentContent textContent (form s))).
Proof.
  cbv zeta; rewrite handleFileUpload_eq.
  unfold handleFileUpload_resume, try_catch_finally, handleFileUpload_try,
    bind, lift, modify.
  destruct (read_file file) as [t|e]; simpl; split.
  - intros Hb; unfold analyzeDocument_begin; simpl.
    rewrite (proj2 (blank_guard _) Hb); reflexivity.
  - intros t' H Hn; injection H as <-.
    unfold analyzeDocument_begin; simpl.
    destruct (negb (truthy (trim t))) eqn:E.
    + exfalso; apply Hn, blank_guard, E.
    + eexists _, _; split; reflexivity.
  - intros _; reflexivity.
  - discriminate.
Qed.

Lemma upload_then_submit_witness :
  let s1 := handleFileUpload (Some Sample.torn_pdf) Sample.analyzed_state in
  analyzeDocument_begin (Some Client) s1 = (set_error (Some EMPTY_DOCUMENT) s1, None).
Proof.
  apply (proj1 (@upload_then_submit Client Sample.torn_pdf Sample.analyzed_state)).
  exact I.
Defined.

(** X18: a reply is appended to the transcript that is in [state] when it
    arrives.  The resumption does not look at the session the question was
    asked on: it leaves [state.chat] as it finds it and, on a reply, adds
    one model turn to the current transcript, also when a new analysis has
    meanwhile dropped that session and emptied the transcript. *)
Theorem reply_lands_in_current_transcript
        (p p' : Page) (k : nat) (reply : completion GenerateContentResponse) :
  fire (ChatSettles k reply) p = Some p' ->
  (exists session question, In (ChatTask session question) (pending p)) /\
  chat (state p') = chat (state p) /\
  isChatLoading (state p') = false /\
  match reply with
  | Normal response =>
    chatHistory (state p') =
      chatHistory (state p) ++ [ {| role := model; text := response_text response |} ] /\
    chatError (state p') = chatError (state p)
  | Throw e =>
    chatHistory (state p') = chatHistory (state p) /\
    chatError (state p') = Some (chat_error e)
  end.
Proof.
  simpl; destruct (take k (pending p)) as [[[|session question|] rest]|] eqn:Ht;
    try discriminate.
  intros H; injection H as <-; simpl.
  split; [exists session, question; exact (proj1 (take_in _ _ Ht))|].
  unfold askFollowUpQuestion_resume, try_catch_finally, askFollowUpQuestion_try,
    bind, lift, modify.
  destruct reply; repeat split.
Qed.

Lemma reply_lands_in_current_transcript_witness :
  let p := Sample.page_after (Sample.asked ++ [SubmitForm]) in
  let reply := Normal {| response_text := Some (lit "The tenant.") |} in
  exists p',
    fire (ChatSettles 0 reply) p = Some p' /\
    chat (state p) = None /\
    chatHistory (state p') = [ {| role := model; text := Some (lit "The tenant.") |} ].
Proof.
  intros p reply.
  destruct (fire (ChatSettles 0 reply) p) as [p'|] eqn:Hf;
    [|vm_compute in Hf; discriminate Hf].
  exists p'; split; [reflexivity|].
  destruct (reply_lands_in_current_transcript _ _ _ Hf) as (_ & _ & _ & Hh & _).
  split; [vm_compute; reflexivity|].
  rewrite Hh; vm_compute; reflexivity.
Defined.
